(** * Paibot: the conversational core (bot/chatbot.py, bot/memory.py,
      bot/command_docs.py, bot/persona.py)

    A shallow embedding of the four Python modules of the [bot] package and
    the properties of the orchestration core.

    Conventions of the embedding.
    - A Python [str] is the list of its code points ([list N]).  Literals
      are written as Rocq strings (UTF-8 bytes) and decoded by [py].
    - [str.strip], [str.split], [str.replace], [str.join], [in] and
      [str.startswith] are defined below on code point lists.
      [str.lower] and [str.isalnum] depend on the Unicode character
      database: with the clock they are the operations of the class
      [PyRuntime], and every general theorem holds for any instance of it.
    - Objects with dynamically typed fields (a [MemoryRecord], the JSON
      payload of a memory file) hold [value]s.
    - Effects are explicit: [World] holds the memory files, the clock and
      the trace of I/O events; the generative model answers as a function
      of the trace so far and of the prompt; a Python exception is the
      [Raise] branch of [result], which carries no world: the embedding
      follows a run up to its first exception. *)

From stdpp Require Import base option list gmap strings.
From Stdlib Require Import Ascii ZArith NArith QArith.QArith_base Lia.

Local Open Scope N_scope.
Local Open Scope list_scope.

(** ** Python strings *)

Abbreviation str := (list N).

Fixpoint string_bytes (s : string) : list N :=
  match s with
  | EmptyString => []
  | String a s' => N_of_ascii a :: string_bytes s'
  end.

(** UTF-8 decoding of a source literal into code points. *)
Fixpoint utf8_decode (bs : list N) : str :=
  match bs with
  | [] => []
  | b0 :: r0 =>
    if b0 <? 128 then b0 :: utf8_decode r0
    else if b0 <? 224 then
      match r0 with
      | b1 :: r1 => ((b0 mod 32) * 64 + b1 mod 64) :: utf8_decode r1
      | _ => []
      end
    else if b0 <? 240 then
      match r0 with
      | b1 :: b2 :: r2 =>
        ((b0 mod 16) * 4096 + (b1 mod 64) * 64 + b2 mod 64) :: utf8_decode r2
      | _ => []
      end
    else
      match r0 with
      | b1 :: b2 :: b3 :: r3 =>
        ((b0 mod 8) * 262144 + (b1 mod 64) * 4096 + (b2 mod 64) * 64 + b3 mod 64)
          :: utf8_decode r3
      | _ => []
      end
  end.

Definition py (s : string) : str := utf8_decode (string_bytes s).

(** [a == b] on strings. *)
Fixpoint str_eqb (a b : str) : bool :=
  match a, b with
  | [], [] => true
  | x :: a', y :: b' => (x =? y) && str_eqb a' b'
  | _, _ => false
  end.

(** [str.isspace] of one code point: CPython's [_PyUnicode_IsWhitespace]. *)
Definition isspace (c : N) : bool :=
  ((9 <=? c) && (c <=? 13)) || ((28 <=? c) && (c <=? 32))
  || (c =? 133) || (c =? 160) || (c =? 5760)
  || ((8192 <=? c) && (c <=? 8202))
  || (c =? 8232) || (c =? 8233) || (c =? 8239) || (c =? 8287) || (c =? 12288).

Fixpoint lstrip (s : str) : str :=
  match s with
  | [] => []
  | c :: s' => if isspace c then lstrip s' else s
  end.

Definition rstrip (s : str) : str := rev (lstrip (rev s)).

(** [s.strip()] *)
Definition strip (s : str) : str := rstrip (lstrip s).

(** [s.startswith(p)] *)
Fixpoint startswith (p s : str) : bool :=
  match p, s with
  | [], _ => true
  | _ :: _, [] => false
  | a :: p', b :: s' => (a =? b) && startswith p' s'
  end.

(** [sub in s] for strings. *)
Fixpoint contains (sub s : str) : bool :=
  startswith sub s ||
  match s with
  | [] => false
  | _ :: s' => contains sub s'
  end.

(** [s.replace(old, new)] for a one-character [old]. *)
Definition replace_char (old : N) (new : str) (s : str) : str :=
  flat_map (fun c => if c =? old then new else [c]) s.

(** [s.split(sep)] for a non-empty separator: [acc] is the current piece in
    reverse, [skip] counts the characters of a separator still to pass. *)
Fixpoint split_go (sep : str) (s : str) (acc : str) (skip : nat) : list str :=
  match s with
  | [] => [rev acc]
  | c :: s' =>
    match skip with
    | S k => split_go sep s' acc k
    | O =>
      if startswith sep s
      then rev acc :: split_go sep s' [] (Nat.pred (length sep))
      else split_go sep s' (c :: acc) O
    end
  end.

Definition split (sep s : str) : list str := split_go sep s [] O.

(** [sep.join(parts)] *)
Fixpoint join (sep : str) (parts : list str) : str :=
  match parts with
  | [] => []
  | [p] => p
  | p :: rest => p ++ sep ++ join sep rest
  end.

(** [l[start:]] for any integer [start], as Python slices. *)
Definition slice_from {A} (start : Z) (l : list A) : list A :=
  if (start <? 0)%Z
  then drop (Z.to_nat (Z.max 0 (Z.of_nat (length l) + start))) l
  else drop (Z.to_nat start) l.

(** What the code takes from the Python runtime: two operations of the
    Unicode database and the clock. *)
Class PyRuntime := {
  lower : str -> str;       (* str.lower() *)
  isalnum : N -> bool;      (* str.isalnum() of one code point *)
  utcnow : nat -> str       (* datetime.now(timezone.utc).strftime(ISO_TIMESTAMP),
                               at the k-th reading of the clock *)
}.

(** The instance for text whose cased characters and alphanumerics are
    ASCII (on such text it agrees with CPython), with a stopped clock. *)
Definition ascii_lower_char (c : N) : N :=
  if (65 <=? c) && (c <=? 90) then c + 32 else c.

Definition ascii_isalnum (c : N) : bool :=
  ((48 <=? c) && (c <=? 57)) || ((65 <=? c) && (c <=? 90))
  || ((97 <=? c) && (c <=? 122)).

Definition ascii_runtime : PyRuntime :=
  {| lower := map ascii_lower_char;
     isalnum := ascii_isalnum;
     utcnow := fun _ => py "2024-01-01T00:00:00.000000Z" |}.

(** ** Exceptions *)

Inductive exn :=
| AttributeError | TypeError | IndexError | ZeroDivisionError
| OSError | UnicodeEncodeError.

Inductive result (A : Type) :=
| Ok (a : A)
| Raise (e : exn).
Arguments Ok {A} a.
Arguments Raise {A} e.

#[global] Instance result_ret : MRet result := fun A a => Ok a.

#[global] Instance result_bind : MBind result := fun A B k m =>
  match m with
  | Ok a => k a
  | Raise e => Raise e
  end.

(** A comprehension or loop whose body may raise: left to right, the
    first exception wins. *)
Fixpoint for_each {A B} (f : A -> result B) (l : list A) : result (list B) :=
  match l with
  | [] => Ok []
  | a :: l' => b ← f a; bs ← for_each f l'; Ok (b :: bs)
  end.

(** Truthiness of a string: [if s]. *)
Definition truthy (s : str) : bool :=
  match s with [] => false | _ :: _ => true end.

(** [a or b] on strings. *)
Definition str_or (a b : str) : str := if truthy a then a else b.

(** ** bot/persona.py *)

Module persona.
Section defs.
Context {R : PyRuntime}.

Record PaimonPersona := {
  name : str;
  referential_third_person : bool;
  closing_emotes : list str
}.

Definition default_persona : PaimonPersona :=
  {| name := py "Paimon";
     referential_third_person := true;
     closing_emotes := [py "☆"; py "✨"; py "♪"; py "☄️"] |}.

Definition _decorate_sentence (self : PaimonPersona) (sentence : str) : result str :=
  let sentence := strip sentence in
  if negb (truthy sentence) then Ok sentence
  else
    let sentence :=
      if referential_third_person self
         && negb (startswith (lower (name self)) (lower sentence))
      then
        let lowered :=
          if (1 <? length sentence)%nat
          then lower (take 1 sentence) ++ drop 1 sentence
          else lower sentence in
        name self ++ py " piensa que " ++ lowered
      else sentence in
    match last sentence with
    | None => Raise IndexError
    | Some c =>
      if negb (contains [c] (py "!?")) then Ok (sentence ++ py "!") else Ok sentence
    end.

Definition CONFUSED : str := py "¡Paimon está un poco confundida ahora mismo!".
Definition NO_WORDS : str := py "¡Paimon no encuentra palabras para esto!".
Definition AWARENESS : str := py " Paimon recuerda que es una bot guía.".

Definition stylize (self : PaimonPersona) (text : str)
    (context_tags : option (list str)) : result str :=
  let text := strip text in
  if negb (truthy text) then Ok CONFUSED
  else
    let sentences := map strip (split (py ".") (replace_char 10 (py " ") text)) in
    decorated ← for_each (_decorate_sentence self)
                          (filter (fun s => truthy s = true) sentences);
    let decorated := match decorated with [] => [NO_WORDS] | _ => decorated end in
    match length (closing_emotes self) with
    | O => Raise ZeroDivisionError
    | S _ =>
      match closing_emotes self !! (length decorated mod length (closing_emotes self))%nat with
      | None => Raise IndexError
      | Some emote =>
        let suffix := py " " ++ emote in
        let awareness :=
          match context_tags with
          | Some (t :: ts) =>
            if bool_decide (py "command" ∈ t :: ts) then [] else AWARENESS
          | _ => AWARENESS
          end in
        Ok (join (py " ") decorated ++ awareness ++ suffix)
      end
    end.

End defs.
End persona.

(** ** bot/command_docs.py *)

(** A [pathlib.Path] as the list of its components. *)
Abbreviation Path := (list str).

Definition as_posix (p : Path) : str := join (py "/") p.

(** [base / filename] for a one-component [filename]. *)
Definition path_div (base : Path) (filename : str) : Path := base ++ [filename].

(** An insertion-ordered [dict] with string keys. *)
Abbreviation dict V := (list (str * V)).

Fixpoint dict_get {V} (k : str) (d : dict V) : option V :=
  match d with
  | [] => None
  | (k', v) :: d' => if str_eqb k' k then Some v else dict_get k d'
  end.

(** [d[k] = v]: an existing key keeps its position. *)
Fixpoint dict_set {V} (k : str) (v : V) (d : dict V) : dict V :=
  match d with
  | [] => [(k, v)]
  | (k', v') :: d' => if str_eqb k' k then (k', v) :: d' else (k', v') :: dict_set k v d'
  end.

(** [d.pop(k)], for the dictionary that is left. *)
Fixpoint dict_pop {V} (k : str) (d : dict V) : dict V :=
  match d with
  | [] => []
  | (k', v') :: d' => if str_eqb k' k then d' else (k', v') :: dict_pop k d'
  end.

Module command_docs.
Section defs.
Context {R : PyRuntime}.

Record CommandDocument := {
  name : str;
  content : str;
  path : Path
}.

Definition summary (self : CommandDocument) : str :=
  let sections :=
    map strip (filter (fun section => truthy (strip section) = true)
                      (split [10; 10] (content self))) in
  match sections with
  | first :: _ => first
  | [] => strip (content self)
  end.

Record CommandDocumentation := {
  _documents : dict CommandDocument
}.

(** One entry of [docs_directory.glob("*.md")]: the file's stem, its path
    and its text. *)
Record MdFile := {
  md_stem : str;
  md_path : Path;
  md_text : str
}.

(** [listing] is [None] when the directory does not exist. *)
Definition _load_documents (self : CommandDocumentation)
    (listing : option (list MdFile)) : CommandDocumentation :=
  match listing with
  | None => self
  | Some files =>
    {| _documents :=
         fold_left
           (fun docs md_file =>
              let key := lower (md_stem md_file) in
              dict_set key
                {| name := key; content := md_text md_file; path := md_path md_file |}
                docs)
           files (_documents self) |}
  end.

Definition init (listing : option (list MdFile)) : CommandDocumentation :=
  _load_documents {| _documents := [] |} listing.

Definition refresh (self : CommandDocumentation)
    (listing : option (list MdFile)) : CommandDocumentation :=
  _load_documents {| _documents := [] |} listing.

Definition available_commands (self : CommandDocumentation) : list str :=
  map fst (_documents self).

Definition get (self : CommandDocumentation) (command_name : str) : option CommandDocument :=
  dict_get (lower command_name) (_documents self).

Fixpoint first_related (normalized : str) (items : dict CommandDocument) : option CommandDocument :=
  match items with
  | [] => None
  | (name, document) :: rest =>
    if contains name normalized || contains normalized name
    then Some document
    else first_related normalized rest
  end.

Definition find_best_match (self : CommandDocumentation) (query : str) : option CommandDocument :=
  let normalized := lower query in
  match dict_get normalized (_documents self) with
  | Some document => Some document
  | None => first_related normalized (_documents self)
  end.

End defs.
End command_docs.

(** ** bot/memory.py *)

(** JSON-compatible Python values. *)
#[local] Unset Elimination Schemes.
Inductive value :=
| VNone
| VBool (b : bool)
| VInt (z : Z)
| VStr (s : str)
| VList (l : list value)
| VDict (d : list (str * value)).
#[local] Set Elimination Schemes.

Definition is_none (v : value) : bool :=
  match v with VNone => true | _ => false end.

(** [v.get(key, default)] *)
Definition value_get (v : value) (key : str) (dflt : value) : result value :=
  match v with
  | VDict d => Ok (default dflt (dict_get key d))
  | _ => Raise AttributeError
  end.

(** [for item in v] *)
Definition iterate (v : value) : result (list value) :=
  match v with
  | VList l => Ok l
  | VDict d => Ok (map (fun kv => VStr (fst kv)) d)
  | VStr s => Ok (map (fun c => VStr [c]) s)
  | _ => Raise TypeError
  end.

Record GenerationConfig := {
  temperature : Q;
  top_p : Q;
  top_k : Z;
  max_output_tokens : Z
}.

(** I/O events, oldest first in a trace. *)
Inductive Event :=
| EvExists (p : Path)
| EvRead (p : Path)
| EvWrite (p : Path) (payload : value)
| EvGenerate (contents : list value) (config : GenerationConfig).

(** A memory file holds the JSON document that [json.dump] wrote and
    [json.load] reads back. *)
Record World := {
  files : gmap Path value;
  clock : nat;
  trace : list Event
}.

Definition log (e : Event) (w : World) : World :=
  {| files := files w; clock := clock w; trace := trace w ++ [e] |}.

Definition tick (w : World) : World :=
  {| files := files w; clock := S (clock w); trace := trace w |}.

Definition write_file (p : Path) (payload : value) (w : World) : World :=
  {| files := <[p := payload]> (files w); clock := clock w;
     trace := trace w ++ [EvWrite p payload] |}.

(** [s.encode("utf-8")] succeeds: no code point of [s] is a surrogate. *)
Definition encodable (s : str) : bool :=
  forallb (fun c => negb ((55296 <=? c) && (c <=? 57343))) s.

(** Every string of a JSON document can be written to a UTF-8 file (the
    documents are dumped with [ensure_ascii=False]). *)
Fixpoint value_encodable (v : value) : bool :=
  match v with
  | VNone | VBool _ | VInt _ => true
  | VStr s => encodable s
  | VList l => forallb value_encodable l
  | VDict d =>
    forallb (fun kv => match kv with (k, x) => encodable k && value_encodable x end) d
  end.

(** The length of a string in the bytes of its UTF-8 encoding. *)
Definition byte_length (s : str) : N :=
  fold_right (fun c n => (if c <? 128 then 1 else if c <? 2048 then 2
                          else if c <? 65536 then 3 else 4) + n) 0 s.

(** The limits of the file system: a path with a component of more than
    255 bytes, or of 4096 bytes or more with its end, is refused with
    ENAMETOOLONG. *)
Definition name_too_long (p : Path) : bool :=
  existsb (fun part => 255 <? byte_length part) p
  || (4096 <=? byte_length (as_posix p) + 1).

Module memory.
Section defs.
Context {R : PyRuntime}.

Record MemoryRecord := {
  role : value;
  content : value;
  metadata : value;
  timestamp : value
}.

Definition to_json (self : MemoryRecord) : value :=
  let payload :=
    [(py "role", role self); (py "content", content self);
     (py "metadata", metadata self); (py "timestamp", timestamp self)] in
  if is_none (default VNone (dict_get (py "metadata") payload))
  then VDict (dict_pop (py "metadata") payload)
  else VDict payload.

Record MemoryManager := {
  _base_directory : Path
}.

Definition safe_char (c : N) : bool :=
  ((97 <=? c) && (c <=? 122)) || ((65 <=? c) && (c <=? 90))
  || ((48 <=? c) && (c <=? 57)) || (c =? 95) || (c =? 46) || (c =? 45).

Definition _sanitize_user_id (self : MemoryManager) (user_id : str) : str :=
  let sanitized := flat_map (fun c => if safe_char c then [c] else py "_") user_id in
  str_or sanitized (py "anonymous").

Definition _memory_file (self : MemoryManager) (user_id : str) : Path :=
  let filename := _sanitize_user_id self user_id ++ py ".json" in
  path_div (_base_directory self) filename.

(** The loop of [load_history]; the clock is read once per item, for the
    default of the timestamp. *)
Fixpoint load_items (items : list value) (w : World) : result (list MemoryRecord * World) :=
  match items with
  | [] => Ok ([], w)
  | item :: rest =>
    r ← value_get item (py "role") (VStr (py "assistant"));
    c ← value_get item (py "content") (VStr []);
    m ← value_get item (py "metadata") VNone;
    t ← value_get item (py "timestamp") (VStr (utcnow (clock w)));
    '(history, w') ← load_items rest (tick w);
    Ok ({| role := r; content := c; metadata := m; timestamp := t |} :: history, w')
  end.

Definition load_history (self : MemoryManager) (user_id : str) (w : World)
    : result (list MemoryRecord * World) :=
  let path := _memory_file self user_id in
  let w := log (EvExists path) w in
  (* path.exists(): true for a file of the store; for any other path it
     is false, or raises OSError when the file system refuses the name
     (Path.exists re-raises ENAMETOOLONG) *)
  match files w !! path with
  | None => if name_too_long path then Raise OSError else Ok ([], w)
  | Some payload =>
    let w := log (EvRead path) w in
    history ← value_get payload (py "history") (VList []);
    items ← iterate history;
    load_items items w
  end.

(** [path.open("w")] raises [OSError] when the file system refuses the
    name; [json.dump] into the UTF-8 file raises [UnicodeEncodeError] when
    a string of the payload cannot be encoded. *)
Definition save_history (self : MemoryManager) (user_id : str)
    (history : list MemoryRecord) (w : World) : result World :=
  let records := history in
  let payload :=
    VDict [(py "user_id", VStr user_id);
           (py "history", VList (map to_json records));
           (py "updated_at", VStr (utcnow (clock w)))] in
  let w := tick w in
  let path := _memory_file self user_id in
  if name_too_long path then Raise OSError
  else if negb (value_encodable payload) then Raise UnicodeEncodeError
  else Ok (write_file path payload w).

Definition append (self : MemoryManager) (user_id : str) (record : MemoryRecord)
    (w : World) : result World :=
  '(history, w) ← load_history self user_id w;
  save_history self user_id (history ++ [record]) w.

Definition extend (self : MemoryManager) (user_id : str) (records : list MemoryRecord)
    (w : World) : result World :=
  '(history, w) ← load_history self user_id w;
  save_history self user_id (history ++ records) w.

End defs.
End memory.

(** ** bot/chatbot.py *)

Module chatbot.
Import persona command_docs memory.
Section defs.
Context {R : PyRuntime}.

(** *** COMMAND_PATTERN

    [(?:!|/)?(?:comando|command|cmd)[:\s]+(?P<name>[\w-]+)] with
    [re.IGNORECASE], matched by backtracking as [re] does: alternatives in
    order, repetitions greedy. *)

(** A letter of the pattern against a character of the subject.  The
    pattern's letters are c, o, m, a, n, d: the only code points whose
    simple lower-case mapping is one of them are the ASCII capitals. *)
Definition ci_eqb (p c : N) : bool := (c =? p) || (c + 32 =? p).

(** A literal at the head of [s]: the rest of [s] after it. *)
Fixpoint match_literal (lit s : str) : option str :=
  match lit, s with
  | [], _ => Some s
  | _ :: _, [] => None
  | p :: lit', c :: s' => if ci_eqb p c then match_literal lit' s' else None
  end.

(** [[\w-]] *)
Definition is_name_char (c : N) : bool := isalnum c || (c =? 95) || (c =? 45).

(** [[:\s]] *)
Definition is_separator (c : N) : bool := (c =? 58) || isspace c.

Fixpoint take_while {A} (f : A -> bool) (l : list A) : list A :=
  match l with
  | [] => []
  | a :: l' => if f a then a :: take_while f l' else []
  end.

(** [(?P<name>[\w-]+)] at the head of [s]. *)
Definition match_name (s : str) : option str :=
  match take_while is_name_char s with
  | [] => None
  | name => Some name
  end.

(** The rest of [[:\s]+] after its first character, then the name: the
    longest run of separators first, a shorter one when the name fails. *)
Fixpoint match_separators (s : str) : option str :=
  match s with
  | c :: s' =>
    if is_separator c then
      match match_separators s' with
      | Some name => Some name
      | None => match_name s
      end
    else match_name s
  | [] => match_name s
  end.

(** [[:\s]+(?P<name>[\w-]+)], the part behind the indicator word. *)
Definition after_word (rest : str) : option str :=
  match rest with
  | c :: rest' => if is_separator c then match_separators rest' else None
  | [] => None
  end.

(** [(?:comando|command|cmd)[:\s]+(?P<name>[\w-]+)] at the head of [s]. *)
Definition match_word (s : str) : option str :=
  match match_literal (py "comando") s ≫= after_word with
  | Some name => Some name
  | None =>
    match match_literal (py "command") s ≫= after_word with
    | Some name => Some name
    | None => match_literal (py "cmd") s ≫= after_word
    end
  end.

(** The whole pattern at the head of [s]. *)
Definition match_here (s : str) : option str :=
  match s with
  | c :: s' =>
    if (c =? 33) || (c =? 47) then
      match match_word s' with
      | Some name => Some name
      | None => match_word s
      end
    else match_word s
  | [] => match_word s
  end.

(** [COMMAND_PATTERN.search(message)], as [match.group("name")]. *)
Fixpoint COMMAND_PATTERN_search (message : str) : option str :=
  match match_here message with
  | Some name => Some name
  | None =>
    match message with
    | [] => None
    | _ :: rest => COMMAND_PATTERN_search rest
    end
  end.

(** *** PaibotChat *)

Record Response := {
  text : option str
}.

Record PaibotChat := {
  memory : MemoryManager;
  persona : PaimonPersona;
  command_docs : CommandDocumentation;
  _history_window : Z;
  _mention_aliases : list str;
  _generation_config : GenerationConfig;
  (* generate_content: the reply may depend on every earlier event *)
  _model : list Event -> list value -> GenerationConfig -> Response
}.

(** [__init__]; [memory_manager], [command_docs] and [model] are taken
    as built. *)
Definition init (memory_manager : MemoryManager) (persona : option PaimonPersona)
    (command_docs : CommandDocumentation)
    (model : list Event -> list value -> GenerationConfig -> Response)
    (history_window : Z) (mention_aliases : option (list str)) : PaibotChat :=
  {| memory := memory_manager;
     persona := default default_persona persona;
     command_docs := command_docs;
     _history_window := Z.max history_window 1;
     _mention_aliases :=
       map lower
         match mention_aliases with
         | Some (a :: l) => a :: l
         | _ => [py "paibot"; py "@paibot"; py "paimon"]
         end;
     _generation_config :=
       {| temperature := 75 # 100; top_p := 9 # 10; top_k := 40;
          max_output_tokens := 512 |};
     _model := model |}.

Definition HEARD_NOTHING : str := py "Paimon no escuchó nada, ¡intenta decir algo de nuevo!".
Definition STILL_THINKING : str := py "Paimon todavía está pensando en la respuesta.".
Definition MENTION_NOTE : str :=
  py "El usuario acaba de mencionar a Paibot. Responde con un tono alegre inspirado en Paimon, sin olvidar que eres una bot.".

Definition _is_mention (self : PaibotChat) (message : str) : bool :=
  let normalized := lower message in
  existsb (fun alias => contains alias normalized) (_mention_aliases self).

Definition _resolve_command_query (self : PaibotChat) (message : str)
    : option CommandDocument :=
  match COMMAND_PATTERN_search message with
  | Some candidate =>
    match get (command_docs self) candidate with
    | Some document => Some document
    | None => find_best_match (command_docs self) candidate
    end
  | None =>
    let normalized := lower message in
    match List.find (fun name => contains name normalized)
                    (available_commands (command_docs self)) with
    | Some name => get (command_docs self) name
    | None => None
    end
  end.

Definition _format_command_response (document : CommandDocument) : str :=
  let summary := summary document in
  py "El comando `" ++ command_docs.name document ++ py "` funciona así:" ++ [10]
  ++ summary ++ [10; 10]
  ++ py "Puedes revisar el archivo `" ++ as_posix (path document)
  ++ py "` para más ejemplos detallados.".

Definition _recent_history (self : PaibotChat) (history : list MemoryRecord)
    : list MemoryRecord :=
  if (Z.of_nat (length history) <=? _history_window self)%Z then history
  else slice_from (- _history_window self) history.

Definition _trim_history (self : PaibotChat) (history : list MemoryRecord)
    : list MemoryRecord :=
  let max_records := (_history_window self * 2)%Z in
  if (Z.of_nat (length history) <=? max_records)%Z then history
  else slice_from (- max_records) history.

Definition turn (role : str) (part : value) : value :=
  VDict [(py "role", VStr role); (py "parts", VList [part])].

Definition is_user (r : value) : bool :=
  match r with VStr s => str_eqb s (py "user") | _ => false end.

(** The [contents] that [_generate_model_reply] builds. *)
Definition build_contents (self : PaibotChat) (history : list MemoryRecord)
    (message : str) (mention : bool) : list value :=
  map (fun record =>
         let role := if is_user (role record) then py "user" else py "model" in
         turn role (content record))
      (_recent_history self history)
  ++ (if mention then [turn (py "user") (VStr MENTION_NOTE)] else [])
  ++ [turn (py "user") (VStr message)].

Definition _generate_model_reply (self : PaibotChat) (history : list MemoryRecord)
    (message : str) (mention : bool) (w : World) : str * World :=
  let contents := build_contents self history message mention in
  let response := _model self (trace w) contents (_generation_config self) in
  let w := log (EvGenerate contents (_generation_config self)) w in
  let text := default [] (text response) in
  (str_or (strip text) STILL_THINKING, w).

(** [MemoryRecord(role=..., content=..., metadata=...)]: the timestamp is
    the clock's at construction. *)
Definition new_record (role : str) (content : str) (metadata : value) (w : World)
    : MemoryRecord * World :=
  ({| memory.role := VStr role; memory.content := VStr content;
      memory.metadata := metadata; timestamp := VStr (utcnow (clock w)) |}, tick w).

(** [str(b)] *)
Definition str_of_bool (b : bool) : str := if b then py "True" else py "False".

Definition respond (self : PaibotChat) (user_id : str) (message : str) (w : World)
    : result (str * World) :=
  let message := strip message in
  if negb (truthy message) then Ok (HEARD_NOTHING, w)
  else
    '(history, w) ← load_history (memory self) user_id w;
    let mention := _is_mention self message in
    let command_document := _resolve_command_query self message in
    let '(base_response, w) :=
      match command_document with
      | Some document => (_format_command_response document, w)
      | None => _generate_model_reply self history message mention w
      end in
    final_response ←
      (if mention then stylize (persona self) base_response None else Ok base_response);
    let '(user_record, w) := new_record (py "user") message VNone w in
    let '(assistant_record, w) :=
      new_record (py "assistant") final_response
        (VDict [(py "mention", VStr (lower (str_of_bool mention)))]) w in
    let updated_history := history ++ [user_record; assistant_record] in
    let trimmed_history := _trim_history self updated_history in
    w ← save_history (memory self) user_id trimmed_history w;
    Ok (final_response, w).

(** A session: the turns in order, each on the world the previous left. *)
Fixpoint run_turns (self : PaibotChat) (turns : list (str * str)) (w : World)
    : result (list str * World) :=
  match turns with
  | [] => Ok ([], w)
  | (user_id, message) :: rest =>
    '(reply, w) ← respond self user_id message w;
    '(replies, w) ← run_turns self rest w;
    Ok (reply :: replies, w)
  end.

End defs.
End chatbot.

(** ** scripts/run_paibot.py *)

Module run_paibot.
Import persona command_docs memory chatbot.
Section defs.
Context {R : PyRuntime}.

(** What [input] meets on standard input; the end of the list is the end
    of the file. *)
Inductive Input :=
| Line (s : str)
| KeyboardInterrupt.

(** What the program writes: the prompt of [input] and the lines of
    [print]. *)
Inductive Output :=
| Prompt (s : str)
| Print (s : str).

Definition BANNER : str :=
  py "Iniciando conversación con Paibot. Escribe 'salir' para terminar.".
Definition GOODBYE : str := py "Cerrando sesión. ¡Hasta luego!".
Definition QUIT_WORDS : list str := [py "salir"; py "exit"; py "quit"].

(** The [while True] loop of [main]: the output and the world it leaves. *)
Fixpoint loop (chat : PaibotChat) (usuario : str) (stdin : list Input) (w : World)
    : result (list Output * World) :=
  match stdin with
  | [] | KeyboardInterrupt :: _ =>
    Ok ([Prompt (py "Tú: "); Print (10 :: GOODBYE)], w)
  | Line s :: rest =>
    let mensaje := strip s in
    if bool_decide (lower mensaje ∈ QUIT_WORDS)
    then Ok ([Prompt (py "Tú: "); Print GOODBYE], w)
    else
      '(respuesta, w) ← respond chat usuario mensaje w;
      '(out, w) ← loop chat usuario rest w;
      Ok (Prompt (py "Tú: ") :: Print (py "Paibot: " ++ respuesta) :: out, w)
  end.

(** [main], for the chat that [PaibotChat(model_name=args.modelo)] built
    and the user of the command line; it returns 0 when it returns. *)
Definition main (chat : PaibotChat) (usuario : str) (stdin : list Input) (w : World)
    : result (list Output * Z * World) :=
  '(out, w) ← loop chat usuario stdin w;
  Ok (Print BANNER :: out, 0%Z, w).

End defs.
End run_paibot.

(** * Vocabulary of the specification *)

(** [sub] occurs in [s]. *)
Definition substring (sub s : str) : Prop :=
  exists pre post, s = pre ++ sub ++ post.

(** A command key and a query are related when either occurs in the other. *)
Definition related (key query : str) : Prop :=
  substring key query \/ substring query key.

(** The text ends in [!] or [?]. *)
Definition ends_in_mark (s : str) : bool :=
  match last s with
  | Some c => (c =? 33) || (c =? 63)
  | None => false
  end.

(** The characters a storage key may contain: [A-Za-z0-9_.-]. *)
Definition safe_set : str :=
  py "abcdefghijklmnopqrstuvwxyzABCDEFGHIJKLMNOPQRSTUVWXYZ0123456789_.-".

Section spec_defs.
Context {R : PyRuntime}.
Import persona.

(** The fragments of a text: split on [.] after newlines became spaces,
    each trimmed, the empty ones discarded. *)
Definition fragments (text : str) : list str :=
  filter (fun s => s <> [])
         (map strip (split (py ".") (replace_char 10 (py " ") (strip text)))).

(** The decoration of one fragment, in the words of the specification:
    the third-person rewriting, then the closing mark. *)
Definition third_person (p : PaimonPersona) (fragment : str) : str :=
  if referential_third_person p && negb (startswith (lower (name p)) (lower fragment))
  then name p ++ py " piensa que " ++ lower (take 1 fragment) ++ drop 1 fragment
  else fragment.

Definition decorate_spec (p : PaimonPersona) (fragment : str) : str :=
  let rewritten := third_person p fragment in
  if ends_in_mark rewritten then rewritten else rewritten ++ py "!".

(** The sentences that [stylize] joins: the decorated fragments, or the
    fixed sentence alone when no fragment is left. *)
Definition decorated_of (p : PaimonPersona) (text : str) : list str :=
  match fragments text with
  | [] => [NO_WORDS]
  | fs => map (decorate_spec p) fs
  end.

(** The awareness clause, dropped for a call tagged as a command answer. *)
Definition awareness_clause (context_tags : option (list str)) : str :=
  match context_tags with
  | Some tags => if bool_decide (py "command" ∈ tags) then [] else AWARENESS
  | None => AWARENESS
  end.

(** The command pattern occurs in [message] with the identifier [name]:
    an indicator word in any case, one or more separators, and the
    identifier; the optional marker before the word adds no constraint. *)
Definition indicator_word (word : str) : Prop :=
  map ascii_lower_char word = py "comando"
  \/ map ascii_lower_char word = py "command"
  \/ map ascii_lower_char word = py "cmd".

Definition pattern_at (message name : str) : Prop :=
  exists pre word seps post,
    message = pre ++ word ++ seps ++ name ++ post
    /\ indicator_word word
    /\ seps <> [] /\ Forall (fun c => chatbot.is_separator c = true) seps
    /\ name <> [] /\ Forall (fun c => chatbot.is_name_char c = true) name.

Definition pattern_occurs (message : str) : Prop :=
  exists name, pattern_at message name.

End spec_defs.

(** Auxiliary definitions of the statements and proofs. *)

Section statement_defs.
Context {R : PyRuntime}.
Import persona command_docs memory chatbot.

(** One character of an identity in the storage key. *)
Definition sanitize_char (c : N) : N := if safe_char c then c else 95.

(** The record that [load_history] builds from one item; [now] is the
    clock's reading for the default of the timestamp. *)
Definition of_item (item : value) (now : str) : result MemoryRecord :=
  r ← value_get item (py "role") (VStr (py "assistant"));
  c ← value_get item (py "content") (VStr []);
  m ← value_get item (py "metadata") VNone;
  t ← value_get item (py "timestamp") (VStr now);
  Ok {| role := r; content := c; metadata := m; timestamp := t |}.

(** The reply before styling, from the command document or the model. *)
Definition base_reply (self : PaibotChat) (history : list MemoryRecord) (message : str)
    (w : World) : str * World :=
  match _resolve_command_query self message with
  | Some document => (_format_command_response document, w)
  | None => _generate_model_reply self history message (_is_mention self message) w
  end.

(** The history that a turn saves. *)
Definition turn_history (history : list MemoryRecord) (message final_response : str)
    (mention : bool) (w : World) : list MemoryRecord :=
  history
  ++ [ {| role := VStr (py "user"); content := VStr message; metadata := VNone;
          timestamp := VStr (utcnow (clock w)) |};
       {| role := VStr (py "assistant"); content := VStr final_response;
          metadata := VDict [(py "mention", VStr (lower (str_of_bool mention)))];
          timestamp := VStr (utcnow (S (clock w))) |} ].

(** The [n] most recent records, the oldest of them first. *)
Definition last_n {A} (n : nat) (l : list A) : list A := drop (length l - n) l.

(** The records a saved payload holds. *)
Definition saved_records (payload : value) : list value :=
  match payload with
  | VDict d => match dict_get (py "history") d with Some (VList l) => l | _ => [] end
  | _ => []
  end.

(** The object that [save_history] serializes; [now] is the clock's
    reading. *)
Definition saved_payload (user_id : str) (history : list MemoryRecord) (now : str) : value :=
  VDict [(py "user_id", VStr user_id);
         (py "history", VList (map to_json history));
         (py "updated_at", VStr now)].

(** What one event may hold under a history window: a written history at
    most twice the window, a prompt at most the window besides the
    mention note and the message. *)
Definition event_within (window : Z) (e : Event) : Prop :=
  match e with
  | EvWrite _ payload => (Z.of_nat (length (saved_records payload)) <= 2 * window)%Z
  | EvGenerate contents _ => (Z.of_nat (length contents) <= window + 2)%Z
  | _ => True
  end.

(** A history record as a turn of the prompt. *)
Definition prompt_turn (record : MemoryRecord) : value :=
  turn (if is_user (role record) then py "user" else py "model") (content record).

End statement_defs.

(** Auxiliary definitions of the further properties. *)

Section further_defs.
Context {R : PyRuntime}.
Import persona command_docs memory chatbot.

(** The record read from one object of a memory file: each missing field
    takes its default, the timestamp the clock's reading [now]. *)
Definition record_with_defaults (now : str) (d : dict value) : MemoryRecord :=
  {| role := default (VStr (py "assistant")) (dict_get (py "role") d);
     content := default (VStr []) (dict_get (py "content") d);
     metadata := default VNone (dict_get (py "metadata") d);
     timestamp := default (VStr now) (dict_get (py "timestamp") d) |}.

Definition is_object (v : value) : Prop :=
  match v with VDict _ => True | _ => False end.

(** [None], a Boolean or a number: what a [for] loop cannot iterate. *)
Definition is_scalar (v : value) : Prop :=
  match v with VNone | VBool _ | VInt _ => True | _ => False end.

(** The document that [_load_documents] makes of one file, and its key. *)
Definition document_of (md_file : MdFile) : CommandDocument :=
  {| command_docs.name := lower (md_stem md_file);
     command_docs.content := md_text md_file;
     path := md_path md_file |}.

Definition load_step (docs : dict CommandDocument) (md_file : MdFile)
    : dict CommandDocument :=
  dict_set (lower (md_stem md_file)) (document_of md_file) docs.

Definition calls_model (e : Event) : bool :=
  match e with EvGenerate _ _ => true | _ => false end.

Definition writes_file (e : Event) : bool :=
  match e with EvWrite _ _ => true | _ => false end.

(** One exchange: the user's record and the assistant's. *)
Definition exchange (pair : MemoryRecord * MemoryRecord) : list MemoryRecord :=
  [pair.1; pair.2].

(** A history made of exchanges: user and assistant records alternate,
    a user record first. *)
Definition alternating (history : list MemoryRecord) : Prop :=
  exists pairs,
    history = flat_map exchange pairs
    /\ Forall (fun pair => role pair.1 = VStr (py "user")
                           /\ role pair.2 = VStr (py "assistant")) pairs.

(** Every memory file is a saved history of exchanges. *)
Definition store_alternating (w : World) : Prop :=
  forall path payload,
    files w !! path = Some payload ->
    exists user_id records updated_at,
      payload = VDict [(py "user_id", VStr user_id);
                       (py "history", VList (map to_json records));
                       (py "updated_at", VStr updated_at)]
      /\ alternating records.

(** A line that ends the session of the command line. *)
Definition quits (line : str) : Prop := lower (strip line) ∈ run_paibot.QUIT_WORDS.

(** What the session prints for one reply. *)
Definition printed (reply : str) : list run_paibot.Output :=
  [run_paibot.Prompt (py "Tú: "); run_paibot.Print (py "Paibot: " ++ reply)].

(** The input that ends the session: a quit word, an interrupt or the end
    of the input; and the farewell printed for it. *)
Definition ends_session (ending : list run_paibot.Input) : Prop :=
  match ending with
  | run_paibot.Line q :: _ => quits q
  | _ => True
  end.

Definition farewell (ending : list run_paibot.Input) : str :=
  match ending with
  | run_paibot.Line _ :: _ => run_paibot.GOODBYE
  | _ => 10 :: run_paibot.GOODBYE
  end.

(** The identifier [name] occurs in [s] as a whole token: a non-empty run
    of word characters and hyphens that no such character follows. *)
Definition token_in (s name : str) : Prop :=
  exists pre post,
    s = pre ++ name ++ post
    /\ name <> [] /\ Forall (fun c => is_name_char c = true) name
    /\ match post with [] => True | c :: _ => is_name_char c = false end.

End further_defs.

(** * A concrete deployment

    Two command documents, a model with a fixed answer, an empty store;
    the runtime is [ascii_runtime]. *)

Module demo.
Import persona command_docs memory chatbot.
#[local] Existing Instance ascii_runtime.

Definition manager : MemoryManager := {| _base_directory := [py "memory"] |}.

Definition jump_md : MdFile :=
  {| md_stem := py "Jump";
     md_path := [py "commands"; py "Jump.md"];
     md_text := py "Salta un obstaculo." ++ [10; 10] ++ py "Uso: jump." |}.

Definition spawn_md : MdFile :=
  {| md_stem := py "spawn";
     md_path := [py "commands"; py "spawn.md"];
     md_text := py "Crea un objeto." |}.

Definition docs : CommandDocumentation := command_docs.init (Some [jump_md; spawn_md]).

Definition model (answer : str) : list Event -> list value -> GenerationConfig -> Response :=
  fun _ _ _ => {| text := Some answer |}.

Definition chat (history_window : Z) : PaibotChat :=
  chatbot.init manager None docs (model (py " Hola, viajero. ")) history_window None.

Definition world0 : World := {| files := ∅; clock := 0; trace := [] |}.

(** A persona without emotes. *)
Definition mute : PaimonPersona :=
  {| persona.name := py "Paimon"; referential_third_person := true; closing_emotes := [] |}.

End demo.

(** Further sample data: a memory file that is not an object, one with
    sparse items, a record, a persona without third-person rewriting, a
    record that utf-8 cannot encode and an identity whose file name is too
    long. *)

Module samples.
Import persona command_docs memory chatbot.
#[local] Existing Instance ascii_runtime.

Definition broken_world : World :=
  {| files := {[ _memory_file demo.manager (py "ana") := VList [] ]};
     clock := 0; trace := [] |}.

Definition sparse_items : list (dict value) :=
  [ []; [(py "role", VStr (py "user")); (py "content", VStr (py "Hola"))] ].

Definition sparse_payload : dict value :=
  [(py "history", VList (map VDict sparse_items))].

Definition sparse_world : World :=
  {| files := {[ _memory_file demo.manager (py "ana") := VDict sparse_payload ]};
     clock := 7; trace := [] |}.

Definition note : MemoryRecord :=
  {| role := VStr (py "user"); content := VStr (py "Hola"); metadata := VNone;
     timestamp := VStr (py "2024-01-01T00:00:00.000000Z") |}.

Definition plain : PaimonPersona :=
  {| persona.name := py "Paimon"; referential_third_person := false;
     closing_emotes := [py "☆"] |}.


(** An identity of 251 letters: its file name has 256 bytes. *)
Definition long_id : str := repeat 97 251.

End samples.

(** * Properties *)

(** ** Strings *)

Section string_facts.

Lemma str_eqb_eq (a b : str) : str_eqb a b = true <-> a = b.
Proof.
  revert b. induction a as [|x a IH]; intros [|y b]; simpl; try (split; congruence).
  rewrite andb_true_iff, N.eqb_eq, IH. split; [intros [-> ->]; done | intros [= -> ->]; done].
Qed.

Lemma str_eqb_refl (a : str) : str_eqb a a = true.
Proof. by apply str_eqb_eq. Qed.

Lemma str_eqb_neq (a b : str) : str_eqb a b = false <-> a <> b.
Proof.
  rewrite <- str_eqb_eq. destruct (str_eqb a b); split; congruence.
Qed.

Lemma truthy_true (s : str) : truthy s = true <-> s <> [].
Proof. destruct s; simpl; split; congruence. Qed.

Lemma truthy_false (s : str) : truthy s = false <-> s = [].
Proof. destruct s; simpl; split; congruence. Qed.

Lemma str_or_nonempty (a b : str) : b <> [] -> str_or a b <> [].
Proof.
  intros Hb. unfold str_or. destruct (truthy a) eqn:Ha; [by apply truthy_true | done].
Qed.

(** [startswith] and [contains] against their meaning on lists. *)
Lemma startswith_spec (p s : str) :
  startswith p s = true <-> exists post, s = p ++ post.
Proof.
  revert s. induction p as [|a p IH]; intros s; simpl.
  - split; [intros _; by exists s | done].
  - destruct s as [|b s].
    + split; [done | intros [post [=]]].
    + rewrite andb_true_iff, N.eqb_eq, IH. split.
      * intros [-> [post ->]]. by exists post.
      * intros [post [= -> ->]]. split; [done | by exists post].
Qed.

Lemma contains_spec (sub s : str) :
  contains sub s = true <-> substring sub s.
Proof.
  induction s as [|c s IH].
  - simpl. rewrite orb_false_r, startswith_spec. split.
    + intros [post H]. by exists [], post.
    + intros [pre [post H]]. destruct pre; [by exists post | done].
  - cbn [contains]. rewrite orb_true_iff, startswith_spec, IH. split.
    + intros [[post H] | [pre [post H]]].
      * by exists [], post.
      * exists (c :: pre), post. by rewrite H.
    + intros [[|c' pre] [post H]].
      * left. by exists post.
      * right. injection H as -> ->. by exists pre, post.
Qed.

Lemma substring_refl (s : str) : substring s s.
Proof. exists [], []. by rewrite app_nil_r. Qed.

(** [strip]: what it leaves has no white space at either end, and
    stripping again changes nothing. *)
Lemma lstrip_head (s : str) :
  match lstrip s with
  | [] => True
  | c :: _ => isspace c = false
  end.
Proof.
  induction s as [|c s IH]; simpl; [done |].
  destruct (isspace c) eqn:Hc; [done | by simpl].
Qed.

Lemma lstrip_fixed (s : str) :
  match s with [] => True | c :: _ => isspace c = false end -> lstrip s = s.
Proof. destruct s as [|c s]; simpl; [done | by intros ->]. Qed.

Lemma lstrip_snoc (s : str) (c : N) :
  isspace c = false -> lstrip (s ++ [c]) = lstrip s ++ [c].
Proof.
  intros Hc. induction s as [|a s IH]; simpl; [by rewrite Hc |].
  destruct (isspace a); done.
Qed.

Lemma lstrip_nil (s : str) : lstrip s = [] -> forallb isspace s = true.
Proof.
  induction s as [|c s IH]; simpl; [done |].
  destruct (isspace c); [done | discriminate].
Qed.

Lemma lstrip_spaces (s : str) : forallb isspace s = true -> lstrip s = [].
Proof.
  induction s as [|c s IH]; simpl; [done |].
  destruct (isspace c); [done | discriminate].
Qed.

Lemma rstrip_keeps_head (s : str) : lstrip s = s -> lstrip (rstrip s) = rstrip s.
Proof.
  intros Hs. unfold rstrip. destruct s as [|c s]; [done |].
  assert (isspace c = false) as Hc.
  { pose proof (lstrip_head (c :: s)) as H. by rewrite Hs in H. }
  simpl rev. rewrite lstrip_snoc by done. rewrite rev_app_distr. simpl.
  by rewrite Hc.
Qed.

Lemma lstrip_idemp (s : str) : lstrip (lstrip s) = lstrip s.
Proof. apply lstrip_fixed, lstrip_head. Qed.

Lemma strip_idemp (s : str) : strip (strip s) = strip s.
Proof.
  unfold strip. rewrite rstrip_keeps_head by apply lstrip_idemp.
  unfold rstrip. by rewrite rev_involutive, lstrip_idemp.
Qed.

Lemma forallb_rev {A} (f : A -> bool) (l : list A) : forallb f (rev l) = forallb f l.
Proof.
  induction l as [|a l IH]; simpl; [done |].
  rewrite forallb_app, IH. simpl. rewrite andb_true_r. apply andb_comm.
Qed.

Lemma strip_nil (s : str) : strip s = [] <-> forallb isspace s = true.
Proof.
  unfold strip, rstrip. split.
  - intros H. apply (f_equal (@rev N)) in H. rewrite rev_involutive in H. simpl in H.
    apply lstrip_nil in H. rewrite forallb_rev in H.
    pose proof (lstrip_head s) as Hh. destruct (lstrip s) as [|c t] eqn:Hl.
    + by apply lstrip_nil.
    + simpl in H. rewrite Hh in H. discriminate.
  - intros H. by rewrite (lstrip_spaces s H).
Qed.

(** A string whose last character is not white space is not blank. *)
Lemma strip_nonblank (s : str) (c : N) :
  last s = Some c -> isspace c = false -> strip s <> [].
Proof.
  intros Hl Hc Hs. apply strip_nil in Hs.
  apply last_Some in Hl as [s' ->].
  rewrite forallb_app in Hs. simpl in Hs. rewrite Hc in Hs.
  by rewrite andb_false_r in Hs.
Qed.

End string_facts.

(** ** Persona Transformer *)

Section persona_facts.
Context {R : PyRuntime}.
Import persona.

Lemma mark_test (c : N) : contains [c] (py "!?") = (c =? 33) || (c =? 63).
Proof.
  change (py "!?") with [33; 63]. simpl.
  rewrite (N.eqb_sym c 33), (N.eqb_sym c 63).
  destruct (33 =? c), (63 =? c); done.
Qed.

Lemma ends_in_mark_app (a b : str) : b <> [] -> ends_in_mark (a ++ b) = ends_in_mark b.
Proof.
  intros Hb. unfold ends_in_mark.
  destruct b as [|c b] using rev_ind; [done |].
  by rewrite app_assoc, !last_snoc.
Qed.

Lemma decorate_spec_ends (p : PaimonPersona) (f : str) :
  ends_in_mark (decorate_spec p f) = true.
Proof.
  unfold decorate_spec. destruct (ends_in_mark (third_person p f)) eqn:H; [done |].
  by rewrite ends_in_mark_app.
Qed.

Lemma decorate_spec_nonempty (p : PaimonPersona) (f : str) : decorate_spec p f <> [].
Proof.
  intros H. pose proof (decorate_spec_ends p f) as He. by rewrite H in He.
Qed.

Lemma third_person_nonempty (p : PaimonPersona) (f : str) :
  f <> [] -> third_person p f <> [].
Proof.
  intros Hf. unfold third_person.
  destruct (_ && _); [| done].
  intros H. apply app_eq_nil in H as [_ H]. by apply app_eq_nil in H as [H _].
Qed.

(** On a trimmed, non-empty fragment [_decorate_sentence] does not raise
    and computes the decoration of the specification. *)
Lemma decorate_sentence_spec (p : PaimonPersona) (f : str) :
  strip f = f -> f <> [] ->
  _decorate_sentence p f = Ok (decorate_spec p f).
Proof.
  intros Hs Hf. unfold _decorate_sentence. rewrite Hs.
  rewrite (proj2 (truthy_true f) Hf). cbn [negb].
  unfold decorate_spec.
  assert ((if referential_third_person p
              && negb (startswith (lower (name p)) (lower f))
           then name p ++ py " piensa que "
                ++ (if (1 <? length f)%nat
                    then lower (take 1 f) ++ drop 1 f else lower f)
           else f) = third_person p f) as ->.
  { unfold third_person. destruct (_ && _); [| done].
    destruct (1 <? length f)%nat eqn:Hlen; [done |].
    apply Nat.ltb_ge in Hlen. destruct f as [|c [|c' f]]; simpl in *; [done | | lia].
    by rewrite app_nil_r. }
  pose proof (third_person_nonempty p f Hf) as Hne.
  unfold ends_in_mark.
  destruct (last (third_person p f)) as [c|] eqn:Hl.
  - rewrite mark_test. by destruct ((c =? 33) || (c =? 63)).
  - by apply last_None in Hl.
Qed.

Lemma strip_fragments (text : str) :
  Forall (fun f => strip f = f /\ f <> []) (fragments text).
Proof.
  unfold fragments. apply Forall_forall. intros f Hf.
  apply list_elem_of_filter in Hf as [Hne Hf].
  apply list_elem_of_fmap in Hf as [x [-> _]].
  split; [apply strip_idemp | done].
Qed.

Lemma for_each_decorate (p : PaimonPersona) (fs : list str) :
  Forall (fun f => strip f = f /\ f <> []) fs ->
  for_each (_decorate_sentence p) fs = Ok (map (decorate_spec p) fs).
Proof.
  induction 1 as [|f fs [Hs Hf] _ IH]; simpl; [done |].
  rewrite decorate_sentence_spec, IH by done. done.
Qed.

Lemma filter_truthy (l : list str) :
  filter (fun s => truthy s = true) l = filter (fun s => s <> []) l.
Proof.
  induction l as [|s l IH]; [done |].
  rewrite !filter_cons, IH.
  destruct s; simpl; repeat case_decide; try done.
Qed.

Lemma awareness_clause_eq (context_tags : option (list str)) :
  match context_tags with
  | Some (t :: ts) => if bool_decide (py "command" ∈ t :: ts) then [] else AWARENESS
  | _ => AWARENESS
  end = awareness_clause context_tags.
Proof.
  destruct context_tags as [[|t ts]|]; simpl; done.
Qed.

Lemma decorated_of_ends (p : PaimonPersona) (text : str) :
  Forall (fun d => ends_in_mark d = true) (decorated_of p text).
Proof.
  unfold decorated_of. destruct (fragments text) as [|f fs].
  - by repeat constructor.
  - apply Forall_forall. intros d Hd.
    apply list_elem_of_fmap in Hd as [x [-> _]]. apply decorate_spec_ends.
Qed.

Lemma decorated_of_nonempty (p : PaimonPersona) (text : str) : decorated_of p text <> [].
Proof. unfold decorated_of. by destruct (fragments text). Qed.

(** [stylize] in closed form, for a text that is not blank. *)
Lemma stylize_unfold (p : PaimonPersona) (text : str) (context_tags : option (list str)) :
  strip text <> [] ->
  stylize p text context_tags =
  match closing_emotes p !! (length (decorated_of p text) mod length (closing_emotes p))%nat with
  | Some emote =>
    Ok (join (py " ") (decorated_of p text) ++ awareness_clause context_tags
        ++ py " " ++ emote)
  | None => Raise ZeroDivisionError
  end.
Proof.
  intros Ht. unfold stylize.
  rewrite (proj2 (truthy_true _) Ht). cbn [negb].
  rewrite filter_truthy. fold (fragments text).
  rewrite (for_each_decorate p (fragments text) (strip_fragments text)).
  cbn [mbind result_bind].
  assert (match map (decorate_spec p) (fragments text) with
          | [] => [NO_WORDS]
          | _ :: _ => map (decorate_spec p) (fragments text)
          end = decorated_of p text) as ->.
  { unfold decorated_of. by destruct (fragments text). }
  rewrite awareness_clause_eq.
  destruct (closing_emotes p) as [|e es] eqn:He; [done |].
  cbn [length].
  destruct ((e :: es) !! _) as [emote|] eqn:Hl; [done |].
  apply lookup_ge_None in Hl. cbn [length] in Hl.
  pose proof (Nat.mod_upper_bound (length (decorated_of p text)) (S (length es))). lia.
Qed.

Lemma mark_not_blank (s : str) : ends_in_mark s = true -> forallb isspace s = false.
Proof.
  unfold ends_in_mark. destruct (last s) as [c|] eqn:Hl; [| done].
  intros Hc. apply last_Some in Hl as [s' ->].
  rewrite forallb_app. simpl.
  apply orb_true_iff in Hc as [Hc | Hc]; apply N.eqb_eq in Hc; subst c;
    apply andb_false_r.
Qed.

Lemma join_ends_in_mark (sep : str) (parts : list str) :
  parts <> [] -> Forall (fun d => ends_in_mark d = true) parts ->
  ends_in_mark (join sep parts) = true.
Proof.
  intros Hne Hall. induction Hall as [|d [|d' rest] Hd Hrest IH]; [done | done |].
  assert (ends_in_mark (join sep (d' :: rest)) = true) as Hj by (by apply IH).
  change (join sep (d :: d' :: rest)) with (d ++ sep ++ join sep (d' :: rest)).
  rewrite app_assoc, ends_in_mark_app; [done |].
  intros Hnil. by rewrite Hnil in Hj.
Qed.

Lemma body_ends_in_mark (p : PaimonPersona) (text : str) :
  ends_in_mark (join (py " ") (decorated_of p text)) = true.
Proof.
  apply join_ends_in_mark; [apply decorated_of_nonempty | apply decorated_of_ends].
Qed.

(** With at least one emote [stylize] never raises. *)
Lemma stylize_defined (p : PaimonPersona) (text : str) (context_tags : option (list str)) :
  closing_emotes p <> [] -> exists s, stylize p text context_tags = Ok s.
Proof.
  intros He. destruct (decide (strip text = [])) as [Hb | Hb].
  - exists CONFUSED. unfold stylize. by rewrite Hb.
  - rewrite stylize_unfold by done.
    destruct (closing_emotes p !! _) as [emote|] eqn:Hl; [by eexists |].
    apply lookup_ge_None in Hl.
    assert (length (closing_emotes p) <> 0)%nat by (by destruct (closing_emotes p)).
    pose proof (Nat.mod_upper_bound (length (decorated_of p text))
                                    (length (closing_emotes p))). lia.
Qed.

(** What [stylize] returns is never blank. *)
Lemma stylize_not_blank (p : PaimonPersona) (text : str) (context_tags : option (list str))
    (s : str) :
  stylize p text context_tags = Ok s -> strip s <> [].
Proof.
  destruct (decide (strip text = [])) as [Hb | Hb].
  - unfold stylize. rewrite Hb. cbn [truthy negb]. intros [= <-]. by vm_compute.
  - rewrite stylize_unfold by done.
    destruct (closing_emotes p !! _) as [emote|]; [| done].
    intros [= <-] Hs. apply strip_nil in Hs.
    rewrite forallb_app, (mark_not_blank _ (body_ends_in_mark p text)) in Hs. done.
Qed.

(** [stylize] raises only without emotes, at the modulo. *)
Lemma stylize_raises (p : PaimonPersona) (text : str) (context_tags : option (list str))
    (e : exn) :
  stylize p text context_tags = Raise e ->
  closing_emotes p = [] /\ e = ZeroDivisionError.
Proof.
  intros Hr. split.
  - destruct (closing_emotes p) as [|e0 es] eqn:He; [done |].
    destruct (stylize_defined p text context_tags) as [s Hs]; [by rewrite He |].
    congruence.
  - revert Hr. destruct (decide (strip text = [])) as [Hb | Hb].
    + unfold stylize. by rewrite Hb.
    + rewrite stylize_unfold by done.
      destruct (closing_emotes p !! _) as [emote|]; [done |]. by intros [= <-].
Qed.

Lemma stylize_closed_form (p : PaimonPersona) (text : str)
    (context_tags : option (list str)) :
  strip text <> [] ->
  closing_emotes p <> [] ->
  exists emote,
    closing_emotes p
      !! (length (decorated_of p text) mod length (closing_emotes p))%nat = Some emote
    /\ stylize p text context_tags
       = Ok (join (py " ") (decorated_of p text) ++ awareness_clause context_tags
             ++ py " " ++ emote).
Proof.
  intros Hs He.
  destruct (stylize_defined p text context_tags He) as [s Hdef].
  rewrite stylize_unfold in Hdef |- * by done.
  destruct (closing_emotes p !! _) as [emote|]; [| done].
  by exists emote.
Qed.

Lemma decorated_of_length (p : PaimonPersona) (text : str) :
  length (decorated_of p text) = Nat.max 1 (length (fragments text)).
Proof.
  unfold decorated_of. destruct (fragments text) as [|f fs]; [done |].
  by rewrite length_map.
Qed.

(** C7, amended.  For a text that is not blank and a persona with at
    least one emote, [stylize] returns the joined sentences, the awareness
    clause, a space and the emote at index
    [sentence_count mod emote_count].  The sentences are the decorated
    fragments of the text, split on [.] after newlines became spaces, or
    the fixed sentence alone when no fragment is left: their count is the
    number of fragments, and one when there is none.  Each fragment is
    decorated by the third-person rewriting (when enabled and the fragment
    does not start with the persona's name, case-insensitively: the first
    character lower-cased behind "{Name} piensa que ") and then a closing
    [!] unless it ends in [!] or [?]. *)
Theorem stylize_decorates_fragments (p : PaimonPersona) (text : str)
    (context_tags : option (list str)) :
  forallb isspace text = false ->
  closing_emotes p <> [] ->
  exists emote,
    closing_emotes p
      !! (length (decorated_of p text) mod length (closing_emotes p))%nat = Some emote
    /\ stylize p text context_tags
       = Ok (join (py " ") (decorated_of p text) ++ awareness_clause context_tags
             ++ py " " ++ emote)
    /\ length (decorated_of p text) = Nat.max 1 (length (fragments text))
    /\ (fragments text <> [] ->
        decorated_of p text = map (decorate_spec p) (fragments text)).
Proof.
  intros Hb He.
  assert (strip text <> []) as Hs.
  { intros H. apply strip_nil in H. congruence. }
  destruct (stylize_closed_form p text context_tags Hs He) as [emote [Hl Hst]].
  exists emote. split; [done |]. split; [done |]. split; [apply decorated_of_length |].
  unfold decorated_of. by destruct (fragments text).
Qed.


End persona_facts.

(** ** Command Reference *)

Section command_docs_facts.
Context {R : PyRuntime}.
Import command_docs.

Lemma dict_get_None {V} (k : str) (d : dict V) :
  dict_get k d = None <-> k ∉ map fst d.
Proof.
  induction d as [|[k' v] d IH]; simpl.
  - split; [intros _; apply not_elem_of_nil | done].
  - rewrite not_elem_of_cons. destruct (str_eqb k' k) eqn:Hk.
    + apply str_eqb_eq in Hk. split; [done | intros [Hne _]; congruence].
    + apply str_eqb_neq in Hk. rewrite IH. split; [intros H; split; congruence | tauto].
Qed.

Lemma dict_get_Some {V} (k : str) (d : dict V) (v : V) :
  dict_get k d = Some v -> (k, v) ∈ d.
Proof.
  induction d as [|[k' v'] d IH]; simpl; [done |].
  destruct (str_eqb k' k) eqn:Hk.
  - apply str_eqb_eq in Hk. intros [= ->]. subst. apply list_elem_of_here.
  - intros H. apply list_elem_of_further. by apply IH.
Qed.

Lemma related_spec (key query : str) :
  contains key query || contains query key = true <-> related key query.
Proof. unfold related. by rewrite orb_true_iff, !contains_spec. Qed.

Lemma first_related_skip (q : str) (before after : dict CommandDocument) :
  Forall (fun kv => ~ related kv.1 q) before ->
  first_related q (before ++ after) = first_related q after.
Proof.
  induction 1 as [|[k d] before Hk _ IH]; [done |]. simpl.
  destruct (contains k q || contains q k) eqn:Hr; [| done].
  by apply related_spec in Hr.
Qed.

(** C6.  [find_best_match] returns the document under the lowered query
    when that is a key; otherwise the first document, in the order of the
    dictionary, whose key occurs in the lowered query or in which the
    lowered query occurs; and no document when no key is related to the
    query either way. *)
Theorem find_best_match_first_related (self : CommandDocumentation) (query : str) :
  let normalized := lower query in
  (forall document,
      dict_get normalized (_documents self) = Some document ->
      find_best_match self query = Some document)
  /\ (normalized ∉ available_commands self ->
      forall before key document after,
        _documents self = before ++ (key, document) :: after ->
        Forall (fun kv => ~ related kv.1 normalized) before ->
        related key normalized ->
        find_best_match self query = Some document)
  /\ (Forall (fun kv => ~ related kv.1 normalized) (_documents self) ->
      find_best_match self query = None).
Proof.
  intros normalized. unfold find_best_match. fold normalized. repeat split.
  - by intros document ->.
  - intros Hkey before key document after Hdocs Hbefore Hrel.
    apply dict_get_None in Hkey. rewrite Hkey, Hdocs.
    rewrite first_related_skip by done. simpl.
    by rewrite (proj2 (related_spec key normalized) Hrel).
  - intros Hnone.
    destruct (dict_get normalized (_documents self)) as [d|] eqn:Hget.
    + apply dict_get_Some in Hget. rewrite Forall_forall in Hnone.
      destruct (Hnone _ Hget). left. apply substring_refl.
    + rewrite <- (app_nil_r (_documents self)). by rewrite first_related_skip.
Qed.

(** The keys keep the order in which the files were first loaded. *)
Lemma dict_set_keys {V} (k : str) (v : V) (d : dict V) :
  map fst (dict_set k v d)
  = match dict_get k d with Some _ => map fst d | None => map fst d ++ [k] end.
Proof.
  induction d as [|[k' v'] d IH]; simpl; [done |].
  destruct (str_eqb k' k) eqn:Hk; [done |]. simpl. rewrite IH.
  by destruct (dict_get k d).
Qed.

End command_docs_facts.

(** ** The command pattern *)

Section pattern_facts.
Context {R : PyRuntime}.
Import persona command_docs memory chatbot.

Lemma ci_eqb_lower (p c : N) :
  97 <= p <= 122 -> ci_eqb p c = true <-> ascii_lower_char c = p.
Proof.
  intros Hp. unfold ci_eqb, ascii_lower_char.
  rewrite orb_true_iff, !N.eqb_eq.
  destruct ((65 <=? c) && (c <=? 90)) eqn:Hc.
  - apply andb_true_iff in Hc as [H1 H2]. apply N.leb_le in H1, H2. lia.
  - apply andb_false_iff in Hc as [H | H]; apply N.leb_gt in H; lia.
Qed.

Lemma match_literal_complete (lit word rest : str) :
  Forall (fun p => 97 <= p <= 122) lit ->
  map ascii_lower_char word = lit ->
  match_literal lit (word ++ rest) = Some rest.
Proof.
  intros Hlit. revert word. induction Hlit as [|p lit Hp _ IH]; intros [|c word] [=]; [done |].
  simpl. rewrite (proj2 (ci_eqb_lower p c Hp)) by done. by apply IH.
Qed.

Lemma match_literal_sound (lit s rest : str) :
  Forall (fun p => 97 <= p <= 122) lit ->
  match_literal lit s = Some rest ->
  exists word, s = word ++ rest /\ map ascii_lower_char word = lit.
Proof.
  intros Hlit. revert s. induction Hlit as [|p lit Hp _ IH]; intros s; simpl.
  - intros [= ->]. by exists [].
  - destruct s as [|c s]; [done |]. destruct (ci_eqb p c) eqn:Hc; [| done].
    intros H. apply IH in H as [word [-> Hw]].
    exists (c :: word). split; [done |]. simpl.
    by rewrite (proj1 (ci_eqb_lower p c Hp) Hc), Hw.
Qed.

Lemma take_while_split {A} (f : A -> bool) (l : list A) :
  exists post, l = take_while f l ++ post /\ Forall (fun a => f a = true) (take_while f l).
Proof.
  induction l as [|a l [post [Hl Hall]]]; simpl; [by exists [] |].
  destruct (f a) eqn:Ha.
  - exists post. split; [simpl; congruence | by constructor].
  - by exists (a :: l).
Qed.

Lemma match_name_sound (s name : str) :
  match_name s = Some name ->
  exists post, s = name ++ post
    /\ name <> [] /\ Forall (fun c => is_name_char c = true) name.
Proof.
  unfold match_name. destruct (take_while_split is_name_char s) as [post [Hs Hall]].
  destruct (take_while is_name_char s) as [|c t]; [done |].
  intros [= <-]. by exists post.
Qed.

Lemma match_name_complete (name post : str) :
  name <> [] -> Forall (fun c => is_name_char c = true) name ->
  is_Some (match_name (name ++ post)).
Proof.
  intros Hne Hall. destruct Hall as [|c name Hc _]; [done |].
  unfold match_name. simpl. rewrite Hc. by eexists.
Qed.

Lemma match_separators_sound (s name : str) :
  match_separators s = Some name ->
  exists seps post, s = seps ++ name ++ post
    /\ Forall (fun c => is_separator c = true) seps
    /\ name <> [] /\ Forall (fun c => is_name_char c = true) name.
Proof.
  assert (forall s, match_name s = Some name ->
            exists seps post, s = seps ++ name ++ post
              /\ Forall (fun c => is_separator c = true) seps
              /\ name <> [] /\ Forall (fun c => is_name_char c = true) name) as Hname.
  { intros s' H. apply match_name_sound in H as [post [-> [? ?]]]. by exists [], post. }
  induction s as [|c s IH]; [apply Hname |].
  cbn [match_separators]. destruct (is_separator c) eqn:Hc; [| apply Hname].
  destruct (match_separators s) as [name'|]; [| apply Hname].
  intros [= ->]. destruct IH as [seps [post [-> [Hs [? ?]]]]]; [done |].
  exists (c :: seps), post. repeat split; try done. by constructor.
Qed.

Lemma match_separators_complete (seps rest : str) :
  Forall (fun c => is_separator c = true) seps ->
  is_Some (match_name rest) -> is_Some (match_separators (seps ++ rest)).
Proof.
  intros Hs Hn. induction Hs as [|c seps Hc _ IH]; simpl.
  - destruct rest as [|c rest]; simpl; [done |].
    destruct (is_separator c); [| done]. by destruct (match_separators rest).
  - rewrite Hc. destruct IH as [name ->]. by eexists.
Qed.

Lemma lits_lowercase :
  Forall (fun p => 97 <= p <= 122) (py "comando")
  /\ Forall (fun p => 97 <= p <= 122) (py "command")
  /\ Forall (fun p => 97 <= p <= 122) (py "cmd").
Proof. repeat split; apply Forall_forall; intros p Hp; vm_compute in Hp; repeat (apply elem_of_cons in Hp as [-> | Hp]; [lia |]); by apply elem_of_nil in Hp. Qed.

Lemma after_word_sound (rest name : str) :
  after_word rest = Some name ->
  exists seps post, rest = seps ++ name ++ post
    /\ seps <> [] /\ Forall (fun c => is_separator c = true) seps
    /\ name <> [] /\ Forall (fun c => is_name_char c = true) name.
Proof.
  destruct rest as [|c rest]; simpl; [done |].
  destruct (is_separator c) eqn:Hc; [| done].
  intros H. apply match_separators_sound in H as [seps [post [-> [Hs [? ?]]]]].
  exists (c :: seps), post. repeat split; try done. by constructor.
Qed.

Lemma after_word_complete (seps name post : str) :
  seps <> [] -> Forall (fun c => is_separator c = true) seps ->
  name <> [] -> Forall (fun c => is_name_char c = true) name ->
  is_Some (after_word (seps ++ name ++ post)).
Proof.
  intros Hne Hs Hn Hall. destruct Hs as [|c seps Hc Hs]; [done |].
  simpl. rewrite Hc. apply match_separators_complete; [done |].
  by apply match_name_complete.
Qed.

Lemma match_word_eq (s : str) :
  match_word s =
  match match_literal (py "comando") s ≫= after_word with
  | Some name => Some name
  | None =>
    match match_literal (py "command") s ≫= after_word with
    | Some name => Some name
    | None => match_literal (py "cmd") s ≫= after_word
    end
  end.
Proof. reflexivity. Qed.

Lemma match_word_sound (s name : str) :
  match_word s = Some name ->
  exists word seps post, s = word ++ seps ++ name ++ post
    /\ indicator_word word
    /\ seps <> [] /\ Forall (fun c => is_separator c = true) seps
    /\ name <> [] /\ Forall (fun c => is_name_char c = true) name.
Proof.
  destruct lits_lowercase as [L1 [L2 L3]].
  assert (forall lit, Forall (fun p => 97 <= p <= 122) lit ->
            match_literal lit s ≫= after_word = Some name ->
            exists word seps post, s = word ++ seps ++ name ++ post
              /\ map ascii_lower_char word = lit
              /\ seps <> [] /\ Forall (fun c => is_separator c = true) seps
              /\ name <> [] /\ Forall (fun c => is_name_char c = true) name) as Halt.
  { intros lit Hlit H. destruct (match_literal lit s) as [rest|] eqn:Hm; [| done].
    simpl in H. apply match_literal_sound in Hm as [word [-> Hw]]; [| done].
    apply after_word_sound in H as [seps [post [-> ?]]]. by exists word, seps, post. }
  rewrite match_word_eq. unfold indicator_word.
  destruct (match_literal (py "comando") s ≫= after_word) as [n1|] eqn:H1.
  { intros [= ->]. destruct (Halt _ L1 H1) as (w & sp & po & ? & ? & ?).
    exists w, sp, po. tauto. }
  destruct (match_literal (py "command") s ≫= after_word) as [n2|] eqn:H2.
  { intros [= ->]. destruct (Halt _ L2 H2) as (w & sp & po & ? & ? & ?).
    exists w, sp, po. tauto. }
  intros H3. destruct (Halt _ L3 H3) as (w & sp & po & ? & ? & ?).
  exists w, sp, po. tauto.
Qed.

Lemma match_word_complete (word seps name post : str) :
  indicator_word word ->
  seps <> [] -> Forall (fun c => is_separator c = true) seps ->
  name <> [] -> Forall (fun c => is_name_char c = true) name ->
  is_Some (match_word (word ++ seps ++ name ++ post)).
Proof.
  intros Hw Hne Hs Hn Hall. destruct lits_lowercase as [L1 [L2 L3]].
  pose proof (after_word_complete seps name post Hne Hs Hn Hall) as [found Hfound].
  rewrite match_word_eq.
  destruct (match_literal (py "comando") _ ≫= after_word) as [n1|] eqn:H1; [by eexists |].
  destruct (match_literal (py "command") _ ≫= after_word) as [n2|] eqn:H2; [by eexists |].
  destruct Hw as [Hw | [Hw | Hw]].
  - rewrite (match_literal_complete _ word _ L1 Hw) in H1. simpl in H1. congruence.
  - rewrite (match_literal_complete _ word _ L2 Hw) in H2. simpl in H2. congruence.
  - rewrite (match_literal_complete _ word _ L3 Hw). simpl. by eexists.
Qed.

Lemma match_here_sound (s name : str) :
  match_here s = Some name ->
  exists pre word seps post, s = pre ++ word ++ seps ++ name ++ post
    /\ indicator_word word
    /\ seps <> [] /\ Forall (fun c => is_separator c = true) seps
    /\ name <> [] /\ Forall (fun c => is_name_char c = true) name.
Proof.
  assert (forall s', match_word s' = Some name ->
            exists pre word seps post, s' = pre ++ word ++ seps ++ name ++ post
              /\ indicator_word word
              /\ seps <> [] /\ Forall (fun c => is_separator c = true) seps
              /\ name <> [] /\ Forall (fun c => is_name_char c = true) name) as Hw.
  { intros s' H. apply match_word_sound in H as (w & sp & po & ? & ?). by exists [], w, sp, po. }
  destruct s as [|c s]; [apply Hw |]. cbn [match_here].
  destruct ((c =? 33) || (c =? 47)); [| apply Hw].
  destruct (match_word s) as [n|] eqn:H; [| apply Hw].
  intros [= ->]. apply match_word_sound in H as (w & sp & po & -> & ?).
  by exists [c], w, sp, po.
Qed.

Lemma match_here_complete (s : str) :
  is_Some (match_word s) -> is_Some (match_here s).
Proof.
  intros Hw. destruct s as [|c s]; [done |]. cbn [match_here].
  destruct ((c =? 33) || (c =? 47)); [| done].
  by destruct (match_word s).
Qed.

Lemma search_sound (message name : str) :
  COMMAND_PATTERN_search message = Some name -> pattern_at message name.
Proof.
  induction message as [|c message IH]; cbn [COMMAND_PATTERN_search].
  - destruct (match_here []) eqn:H; [| done]. intros [= ->].
    by apply match_here_sound in H.
  - destruct (match_here (c :: message)) eqn:H.
    + intros [= ->]. by apply match_here_sound in H.
    + intros H'. destruct (IH H') as (pre & w & sp & po & -> & ?).
      by exists (c :: pre), w, sp, po.
Qed.

Lemma search_complete (message : str) :
  pattern_occurs message -> is_Some (COMMAND_PATTERN_search message).
Proof.
  intros (name & pre & w & sp & po & -> & Hw & Hne & Hs & Hn & Hall).
  pose proof (match_here_complete _ (match_word_complete w sp name po Hw Hne Hs Hn Hall)) as Hm.
  induction pre as [|c pre IH].
  - simpl app. destruct Hm as [found Hm].
    destruct (w ++ sp ++ name ++ po); cbn [COMMAND_PATTERN_search]; by rewrite Hm.
  - simpl app. cbn [COMMAND_PATTERN_search].
    by destruct (match_here (c :: pre ++ w ++ sp ++ name ++ po)).
Qed.

(** C4.  When the command pattern occurs in the message, the search
    captures an identifier of such an occurrence and the query resolves by
    the exact lookup of that identifier, then by the fuzzy match; the scan
    of the known keys for containment plays no part, whatever other command
    names the message contains. *)
Theorem command_pattern_takes_priority (self : PaibotChat) (message : str) :
  pattern_occurs message ->
  exists candidate,
    COMMAND_PATTERN_search message = Some candidate
    /\ pattern_at message candidate
    /\ _resolve_command_query self message
       = match get (chatbot.command_docs self) candidate with
         | Some document => Some document
         | None => find_best_match (chatbot.command_docs self) candidate
         end.
Proof.
  intros Hocc. destruct (search_complete message Hocc) as [candidate Hsearch].
  exists candidate. split; [done |]. split; [by apply search_sound |].
  unfold _resolve_command_query. by rewrite Hsearch.
Qed.

End pattern_facts.

(** ** Memory Store *)

Section memory_facts.
Context {R : PyRuntime}.
Import memory.

Lemma safe_char_spec (c : N) : safe_char c = true <-> c ∈ safe_set.
Proof.
  split.
  - intros Hc.
    assert (c < 123) as Hlt.
    { unfold safe_char in Hc.
      repeat (apply orb_true_iff in Hc as [Hc | Hc]);
        try (apply andb_true_iff in Hc as [_ Hc]; apply N.leb_le in Hc; lia);
        apply N.eqb_eq in Hc; lia. }
    assert (forallb (fun n => implb (safe_char (N.of_nat n))
                                    (existsb (N.eqb (N.of_nat n)) safe_set))
                    (seq 0 123) = true) as Hall by (by vm_compute).
    assert (In (N.to_nat c) (seq 0 123)) as Hin by (apply in_seq; lia).
    pose proof (proj1 (forallb_forall _ _) Hall _ Hin) as Hex.
    cbv beta in Hex. rewrite N2Nat.id, Hc in Hex.
    destruct (existsb (N.eqb c) safe_set) eqn:Hmem; [| discriminate Hex].
    destruct (proj1 (existsb_exists _ _) Hmem) as [x [Hx' Hx]].
    apply N.eqb_eq in Hx. subst x.
    by apply list_elem_of_In.
  - intros Hin.
    assert (forallb safe_char safe_set = true) as Hall by (by vm_compute).
    rewrite forallb_forall in Hall. by apply Hall, list_elem_of_In.
Qed.

Lemma sanitize_map (user_id : str) :
  flat_map (fun c => if safe_char c then [c] else py "_") user_id
  = map sanitize_char user_id.
Proof.
  induction user_id as [|c u IH]; [done |]. simpl. rewrite IH.
  unfold sanitize_char. by destruct (safe_char c).
Qed.

Lemma sanitize_char_safe (c : N) : safe_char (sanitize_char c) = true.
Proof. unfold sanitize_char. by destruct (safe_char c) eqn:Hc. Qed.

Lemma sanitize_nonempty (self : MemoryManager) (user_id : str) :
  user_id <> [] -> _sanitize_user_id self user_id = map sanitize_char user_id.
Proof.
  intros Hne. unfold _sanitize_user_id. rewrite sanitize_map.
  by destruct user_id.
Qed.

Lemma sanitize_char_inv (user_id key : str) :
  map sanitize_char user_id = key -> Forall (fun c => c <> 95) key -> user_id = key.
Proof.
  revert key. induction user_id as [|c u IH]; intros key; [done |].
  cbn [map]. intros <- Hall. apply Forall_cons in Hall as [Hc Hall].
  f_equal; [| by apply IH].
  revert Hc. unfold sanitize_char. by destruct (safe_char c).
Qed.

Lemma anonymous_no_underscore : Forall (fun c => c <> 95) (py "anonymous").
Proof.
  apply Forall_forall. intros c Hc ->.
  assert (existsb (N.eqb 95) (py "anonymous") = false) as Hno by (by vm_compute).
  destruct (existsb (N.eqb 95) (py "anonymous")) eqn:Hex; [done |].
  apply not_true_iff_false in Hex. apply Hex, existsb_exists.
  exists 95. split; [by apply list_elem_of_In | by apply N.eqb_eq].
Qed.

(** C3, amended.  The storage key contains only characters of
    [A-Za-z0-9_.-]: a non-empty identity maps character by character, every
    other character becoming [_], so that an identity of unsafe characters
    only maps to as many [_]; the empty identity maps to "anonymous", which
    is the key of no other identity but "anonymous" itself. *)
Theorem sanitize_user_id_safe (self : MemoryManager) (user_id : str) :
  Forall (fun c => c ∈ safe_set) (_sanitize_user_id self user_id)
  /\ (user_id <> [] ->
      _sanitize_user_id self user_id
      = map (fun c => if bool_decide (c ∈ safe_set) then c else 95) user_id)
  /\ (user_id <> [] -> Forall (fun c => c ∉ safe_set) user_id ->
      _sanitize_user_id self user_id = replicate (length user_id) 95)
  /\ (user_id = [] -> _sanitize_user_id self user_id = py "anonymous")
  /\ (_sanitize_user_id self user_id = py "anonymous" ->
      user_id = [] \/ user_id = py "anonymous").
Proof.
  assert (forall c, sanitize_char c = if bool_decide (c ∈ safe_set) then c else 95) as Hch.
  { intros c. unfold sanitize_char. destruct (safe_char c) eqn:Hc.
    - by rewrite bool_decide_eq_true_2 by (by apply safe_char_spec).
    - rewrite bool_decide_eq_false_2; [done |]. rewrite <- safe_char_spec. congruence. }
  repeat split.
  - destruct user_id as [|c u].
    + apply Forall_forall. intros c Hc. apply safe_char_spec.
      assert (forallb safe_char (_sanitize_user_id self []) = true) as Hall by (by vm_compute).
      rewrite forallb_forall in Hall. by apply Hall, list_elem_of_In.
    + rewrite sanitize_nonempty by done. apply Forall_forall. intros x Hx.
      apply list_elem_of_fmap in Hx as [y [-> _]].
      apply safe_char_spec, sanitize_char_safe.
  - intros Hne. rewrite sanitize_nonempty by done.
    apply map_ext. intros c. apply Hch.
  - intros Hne Hall. rewrite sanitize_nonempty by done.
    clear Hne. induction Hall as [|c u Hc _ IH]; [done |].
    simpl. rewrite IH, Hch. by rewrite bool_decide_eq_false_2.
  - by intros ->.
  - destruct (decide (user_id = [])) as [Hnil | Hne]; [by left |].
    rewrite sanitize_nonempty by done. intros Hkey. right.
    apply sanitize_char_inv; [done | apply anonymous_no_underscore].
Qed.

Lemma of_item_to_json (record : MemoryRecord) (now : str) :
  of_item (to_json record) now = Ok record.
Proof.
  destruct record as [r c m t]. unfold to_json. cbn [role content metadata timestamp].
  destruct m; reflexivity.
Qed.

Lemma to_json_omits_none (record : MemoryRecord) :
  metadata record = VNone ->
  to_json record
  = VDict [(py "role", role record); (py "content", content record);
           (py "timestamp", timestamp record)].
Proof. destruct record as [r c m t]. simpl. by intros ->. Qed.

Lemma to_json_keeps_metadata (record : MemoryRecord) :
  metadata record <> VNone ->
  to_json record
  = VDict [(py "role", role record); (py "content", content record);
           (py "metadata", metadata record); (py "timestamp", timestamp record)].
Proof. destruct record as [r c m t]. simpl. by destruct m. Qed.

Lemma load_items_of_item (item : value) (rest : list value) (w : World) :
  load_items (item :: rest) w
  = (record ← of_item item (utcnow (clock w));
     '(history, w') ← load_items rest (tick w);
     Ok (record :: history, w')).
Proof.
  cbn [load_items]. unfold of_item.
  destruct (value_get item (py "role") _); [| done].
  destruct (value_get item (py "content") _); [| done].
  destruct (value_get item (py "metadata") _); [| done].
  by destruct (value_get item (py "timestamp") _).
Qed.

Lemma load_items_to_json (history : list MemoryRecord) (w : World) :
  exists w', load_items (map to_json history) w = Ok (history, w')
    /\ files w' = files w /\ trace w' = trace w.
Proof.
  revert w. induction history as [|record history IH]; intros w.
  - by exists w.
  - destruct (IH (tick w)) as [w' [Hl [Hf Ht]]]. exists w'.
    cbn [map]. rewrite load_items_of_item, of_item_to_json. cbn [mbind result_bind].
    by rewrite Hl.
Qed.

Lemma save_history_cases (self : MemoryManager) (user_id : str)
    (history : list MemoryRecord) (w : World) :
  save_history self user_id history w
  = if name_too_long (_memory_file self user_id) then Raise OSError
    else if value_encodable (saved_payload user_id history (utcnow (clock w)))
         then Ok (write_file (_memory_file self user_id)
                    (saved_payload user_id history (utcnow (clock w))) (tick w))
         else Raise UnicodeEncodeError.
Proof.
  unfold save_history, saved_payload.
  destruct (name_too_long _); [done |]. by destruct (value_encodable _).
Qed.

Lemma save_history_Ok (self : MemoryManager) (user_id : str)
    (history : list MemoryRecord) (w w1 : World) :
  save_history self user_id history w = Ok w1 ->
  w1 = write_file (_memory_file self user_id)
         (saved_payload user_id history (utcnow (clock w))) (tick w).
Proof.
  rewrite save_history_cases.
  destruct (name_too_long _); [done |]. destruct (value_encodable _); [| done].
  by intros [= <-].
Qed.

Lemma load_written_history (self : MemoryManager) (user_id uid now : str)
    (history : list MemoryRecord) (w : World) :
  files w !! _memory_file self user_id = Some (saved_payload uid history now) ->
  exists w', load_history self user_id w = Ok (history, w') /\ files w' = files w.
Proof.
  intros Hf. unfold load_history, log. cbn [files clock trace]. rewrite Hf.
  unfold saved_payload.
  change (value_get (VDict ?d) (py "history") ?x) with (Ok (default x (dict_get (py "history") d))).
  cbn [mbind result_bind].
  assert (forall a b c,
            dict_get (py "history") [(py "user_id", a); (py "history", b); (py "updated_at", c)]
            = Some b) as -> by reflexivity.
  cbn [default from_option id iterate mbind result_bind].
  edestruct (load_items_to_json history) as [w' [-> [Hw Ht]]].
  exists w'. split; [done |]. by rewrite Hw.
Qed.

Lemma load_saved_history (self : MemoryManager) (user_id : str)
    (history : list MemoryRecord) (w w1 : World) :
  save_history self user_id history w = Ok w1 ->
  exists w', load_history self user_id w1 = Ok (history, w') /\ files w' = files w1.
Proof.
  intros Hs. apply save_history_Ok in Hs as ->.
  eapply load_written_history. unfold write_file. cbn [files tick].
  apply lookup_insert_eq.
Qed.


End memory_facts.

(** ** Conversation Orchestrator *)

Section chatbot_facts.
Context {R : PyRuntime}.
Import persona command_docs memory chatbot.

Lemma load_items_frame (items : list value) (w w' : World) (history : list MemoryRecord) :
  load_items items w = Ok (history, w') ->
  files w' = files w /\ trace w' = trace w /\ length history = length items.
Proof.
  revert w history. induction items as [|item items IH]; intros w history.
  - by intros [= <- <-].
  - rewrite load_items_of_item.
    destruct (of_item item _) as [record|]; [| done]. cbn [mbind result_bind].
    destruct (load_items items (tick w)) as [[history' w'']|] eqn:Hl; [| done].
    intros [= <- <-]. destruct (IH _ _ Hl) as [Hf [Ht Hlen]].
    cbn [length]. by rewrite Hf, Ht, Hlen.
Qed.

(** Loading reads: it leaves the files as they are and adds only the
    test for the file and its reading to the trace. *)
Lemma load_history_frame (self : MemoryManager) (user_id : str) (w w' : World)
    (history : list MemoryRecord) :
  load_history self user_id w = Ok (history, w') ->
  files w' = files w
  /\ exists events, trace w' = trace w ++ events
       /\ Forall (fun e => match e with EvExists _ | EvRead _ => True | _ => False end) events.
Proof.
  unfold load_history. cbn [log files].
  destruct (files w !! _memory_file self user_id) as [payload|].
  - destruct (value_get payload _ _) as [hist|]; [| done]. cbn [mbind result_bind].
    destruct (iterate hist) as [items|]; [| done]. cbn [mbind result_bind].
    intros Hl. apply load_items_frame in Hl as [Hf [Ht _]]. cbn in Hf, Ht.
    split; [done |]. eexists [_; _]. rewrite Ht, <- app_assoc. split; [done |].
    by repeat constructor.
  - destruct (name_too_long _); [done |].
    intros [= <- <-]. split; [done |]. eexists [_]. split; [done |]. by repeat constructor.
Qed.

(** [respond] on a message that is not blank, once the history is loaded. *)
Lemma respond_loaded (self : PaibotChat) (user_id message : str) (w w1 : World)
    (history : list MemoryRecord) :
  strip message <> [] ->
  load_history (chatbot.memory self) user_id w = Ok (history, w1) ->
  respond self user_id message w =
  (let mention := _is_mention self (strip message) in
   let base := base_reply self history (strip message) w1 in
   final_response ←
     (if mention then stylize (chatbot.persona self) base.1 None else Ok base.1);
   w' ← save_history (chatbot.memory self) user_id
          (_trim_history self
             (turn_history history (strip message) final_response mention base.2))
          (tick (tick base.2));
   Ok (final_response, w')).
Proof.
  intros Hm Hl. unfold respond. rewrite (proj2 (truthy_true _) Hm). cbn [negb].
  rewrite Hl. cbn [mbind result_bind]. unfold base_reply.
  destruct (_resolve_command_query self (strip message)) as [document|];
    [| destruct (_generate_model_reply _ _ _ _ _) as [base w2]];
    cbn [fst snd]; by destruct (_is_mention self (strip message)).
Qed.

(** A turn on a message that is not blank returns only if its three
    steps do: the load, the styling and the save. *)
Lemma respond_returns (self : PaibotChat) (user_id message : str) (w w' : World)
    (reply : str) :
  strip message <> [] ->
  respond self user_id message w = Ok (reply, w') ->
  exists history w1,
    load_history (chatbot.memory self) user_id w = Ok (history, w1)
    /\ (if _is_mention self (strip message)
        then stylize (chatbot.persona self)
               (base_reply self history (strip message) w1).1 None
        else Ok (base_reply self history (strip message) w1).1) = Ok reply
    /\ save_history (chatbot.memory self) user_id
         (_trim_history self
            (turn_history history (strip message) reply
               (_is_mention self (strip message))
               (base_reply self history (strip message) w1).2))
         (tick (tick (base_reply self history (strip message) w1).2)) = Ok w'.
Proof.
  intros Hm.
  destruct (load_history (chatbot.memory self) user_id w) as [[history w1]|e] eqn:Hl.
  2: { unfold respond. rewrite (proj2 (truthy_true _) Hm). cbn [negb]. by rewrite Hl. }
  rewrite (respond_loaded self user_id message w w1 history Hm Hl). cbn zeta.
  set (mention := _is_mention self (strip message)).
  destruct (if mention then _ else _) as [final|] eqn:Hsty; [| done].
  cbn [mbind result_bind].
  destruct (save_history _ _ _ _) as [w2|] eqn:Hs; [| done].
  cbn [mbind result_bind]. intros [= <- <-]. exists history, w1.
  split; [done |]. split; [exact Hsty | exact Hs].
Qed.

Lemma literal_nonempty :
  HEARD_NOTHING <> [] /\ STILL_THINKING <> [] /\ py "El comando `" <> [].
Proof. by vm_compute. Qed.

Lemma base_reply_nonempty (self : PaibotChat) (history : list MemoryRecord) (message : str)
    (w : World) :
  (base_reply self history message w).1 <> [].
Proof.
  destruct literal_nonempty as [_ [Hthink Hcmd]]. unfold base_reply.
  destruct (_resolve_command_query self message) as [document|]; cbn [fst].
  - unfold _format_command_response. intros H. by apply app_eq_nil in H as [H _].
  - by apply str_or_nonempty.
Qed.

(** C5.  A message that is empty or only white space is answered by the
    fixed sentence, and the world is left as it was: no file is tested,
    read or written, the clock is not read and the model is not called. *)
Theorem respond_blank_message (self : PaibotChat) (user_id message : str) (w : World) :
  forallb isspace message = true ->
  respond self user_id message w
  = Ok (py "Paimon no escuchó nada, ¡intenta decir algo de nuevo!", w).
Proof.
  intros Hb. unfold respond. by rewrite (proj2 (strip_nil message) Hb).
Qed.

(** C1.  For a message that is not blank, resolves no command document
    and is no mention, the reply is the model's text, trimmed, or the
    fixed sentence when that is empty; the persona is not applied.  The
    turn returns that reply unless saving the history raises. *)
Theorem respond_plain_is_model_text (self : PaibotChat) (user_id message : str)
    (w w1 : World) (history : list MemoryRecord) :
  forallb isspace message = false ->
  load_history (chatbot.memory self) user_id w = Ok (history, w1) ->
  _resolve_command_query self (strip message) = None ->
  _is_mention self (strip message) = false ->
  let response :=
    _model self (trace w1) (build_contents self history (strip message) false)
           (_generation_config self) in
  let trimmed := strip (default [] (text response)) in
  let reply :=
    if decide (trimmed = []) then py "Paimon todavía está pensando en la respuesta."
    else trimmed in
  let saved :=
    _trim_history self
      (turn_history history (strip message) reply false
         (log (EvGenerate (build_contents self history (strip message) false)
                 (_generation_config self)) w1)) in
  let w2 :=
    tick (tick (log (EvGenerate (build_contents self history (strip message) false)
                       (_generation_config self)) w1)) in
  respond self user_id message w
  = (w' ← save_history (chatbot.memory self) user_id saved w2; Ok (reply, w')).
Proof.
  intros Hb Hl Hcmd Hmention response trimmed reply saved w2.
  assert (strip message <> []) as Hm.
  { intros H. apply strip_nil in H. congruence. }
  rewrite (respond_loaded self user_id message w w1 history Hm Hl).
  unfold base_reply. rewrite Hcmd, Hmention. cbn zeta. cbn [mbind result_bind].
  assert ((_generate_model_reply self history (strip message) false w1).1 = reply) as ->.
  { unfold _generate_model_reply. cbn [fst]. fold response. fold trimmed.
    unfold reply, str_or. destruct trimmed; by case_decide. }
  done.
Qed.

Lemma base_reply_files (self : PaibotChat) (history : list MemoryRecord) (message : str)
    (w : World) :
  files (base_reply self history message w).2 = files w.
Proof. unfold base_reply. by destruct (_resolve_command_query self message). Qed.

(** C10.  The reply of [respond] is never empty: neither the fixed
    sentence for a blank message, nor the command template, nor the
    model's text or its fallback, nor their styled form.  A turn that does
    not return a reply has raised in one of three places: loading the
    history, the choice of an emote for a mention by a persona that has
    none, or saving the history. *)
Theorem respond_reply_nonempty (self : PaibotChat) (user_id message : str) (w : World) :
  (forall reply w', respond self user_id message w = Ok (reply, w') -> reply <> [])
  /\ (forall e,
        respond self user_id message w = Raise e ->
        forallb isspace message = false
        /\ (load_history (chatbot.memory self) user_id w = Raise e
            \/ (_is_mention self (strip message) = true
                /\ closing_emotes (chatbot.persona self) = []
                /\ e = ZeroDivisionError)
            \/ exists saved w2,
                save_history (chatbot.memory self) user_id saved w2 = Raise e)).
Proof.
  destruct literal_nonempty as [Hheard _]. split.
  - intros reply w'. destruct (decide (strip message = [])) as [Hb | Hm].
    + unfold respond. rewrite Hb. cbn [truthy negb]. by intros [= <- _].
    + intros Hr.
      destruct (respond_returns _ _ _ _ _ _ Hm Hr) as (history & w1 & _ & Hs & _).
      pose proof (base_reply_nonempty self history (strip message) w1) as Hbase.
      destruct (_is_mention self (strip message)).
      * apply stylize_not_blank in Hs. intros ->. by apply Hs.
      * by injection Hs as <-.
  - intros e. destruct (decide (strip message = [])) as [Hb | Hm].
    { unfold respond. by rewrite Hb. }
    assert (forallb isspace message = false) as Hblank.
    { destruct (forallb isspace message) eqn:H; [| done]. by apply strip_nil in H. }
    destruct (load_history (chatbot.memory self) user_id w) as [[history w1]|e1] eqn:Hl.
    2: { unfold respond. rewrite (proj2 (truthy_true _) Hm). cbn [negb]. rewrite Hl.
         intros [= <-]. by split; [| left]. }
    rewrite (respond_loaded self user_id message w w1 history Hm Hl). cbn zeta.
    destruct (_is_mention self (strip message)) eqn:Hmention.
    + destruct (stylize _ _ None) as [final|e2] eqn:Hsty.
      * cbn [mbind result_bind].
        destruct (save_history _ _ _ _) as [w2|e3] eqn:Hs; [done |].
        intros [= <-]. split; [done |]. right; right. by eexists _, _.
      * intros [= <-]. apply stylize_raises in Hsty as [He ->].
        split; [done |]. right; left. done.
    + cbn [mbind result_bind].
      destruct (save_history _ _ _ _) as [w2|e3] eqn:Hs; [done |].
      intros [= <-]. split; [done |]. right; right. by eexists _, _.
Qed.

(** *** History windowing *)

Lemma last_n_length {A} (n : nat) (l : list A) : length (last_n n l) = (n `min` length l)%nat.
Proof. unfold last_n. rewrite length_drop. lia. Qed.

Lemma last_n_suffix {A} (n : nat) (l : list A) :
  l = take (length l - n) l ++ last_n n l.
Proof. unfold last_n. by rewrite take_drop. Qed.

Lemma slice_from_negative {A} (k : Z) (l : list A) :
  (0 < k)%Z -> slice_from (- k) l = last_n (Z.to_nat k) l.
Proof.
  intros Hk. unfold slice_from, last_n.
  destruct (- k <? 0)%Z eqn:Hneg; [| apply Z.ltb_ge in Hneg; lia].
  f_equal. lia.
Qed.

Lemma recent_history_last_n (self : PaibotChat) (history : list MemoryRecord) :
  (1 <= _history_window self)%Z ->
  _recent_history self history = last_n (Z.to_nat (_history_window self)) history.
Proof.
  intros Hw. unfold _recent_history.
  destruct (_ <=? _)%Z eqn:Hle.
  - apply Z.leb_le in Hle. unfold last_n.
    by replace (length history - Z.to_nat (_history_window self))%nat with 0%nat by lia.
  - apply slice_from_negative. lia.
Qed.

Lemma trim_history_last_n (self : PaibotChat) (history : list MemoryRecord) :
  (1 <= _history_window self)%Z ->
  _trim_history self history = last_n (Z.to_nat (_history_window self * 2)) history.
Proof.
  intros Hw. unfold _trim_history. cbn zeta.
  destruct (_ <=? _)%Z eqn:Hle.
  - apply Z.leb_le in Hle. unfold last_n.
    by replace (length history - Z.to_nat (_history_window self * 2))%nat with 0%nat by lia.
  - apply slice_from_negative. lia.
Qed.

Lemma build_contents_length (self : PaibotChat) (history : list MemoryRecord)
    (message : str) (mention : bool) :
  (1 <= _history_window self)%Z ->
  (Z.of_nat (length (build_contents self history message mention))
   <= _history_window self + 2)%Z.
Proof.
  intros Hw. unfold build_contents.
  rewrite !length_app, length_map, recent_history_last_n, last_n_length by done.
  destruct mention; simpl; lia.
Qed.

Lemma saved_records_save (user_id : str) (records : list value) (now : str) :
  saved_records (VDict [(py "user_id", VStr user_id); (py "history", VList records);
                        (py "updated_at", VStr now)]) = records.
Proof. reflexivity. Qed.

(** The events of one turn respect the window. *)
Lemma respond_trace (self : PaibotChat) (user_id message : str) (w w' : World) (reply : str) :
  (1 <= _history_window self)%Z ->
  respond self user_id message w = Ok (reply, w') ->
  exists events, trace w' = trace w ++ events
    /\ Forall (event_within (_history_window self)) events.
Proof.
  intros Hw. destruct (decide (strip message = [])) as [Hb | Hm].
  - unfold respond. rewrite Hb. cbn [truthy negb]. intros [= <- <-].
    exists []. by rewrite app_nil_r.
  - intros Hr. destruct (respond_returns _ _ _ _ _ _ Hm Hr) as (history & w1 & Hl & _ & Hs).
    apply load_history_frame in Hl as [_ [ev1 [Ht1 Hev1]]].
    assert (exists ev2, trace (base_reply self history (strip message) w1).2
                        = trace w1 ++ ev2
                        /\ Forall (event_within (_history_window self)) ev2)
      as [ev2 [Ht2 Hev2]].
    { unfold base_reply. destruct (_resolve_command_query self (strip message)).
      - exists []. by rewrite app_nil_r.
      - eexists [_]. split; [done |]. repeat constructor.
        by apply build_contents_length. }
    apply save_history_Ok in Hs as ->.
    eexists (ev1 ++ ev2 ++ [_]). unfold write_file.
    cbn [trace tick]. rewrite Ht2, Ht1, <- !app_assoc. split; [done |].
    rewrite !Forall_app. repeat split; [| done |].
    + eapply Forall_impl; [apply Hev1 |]. by intros [].
    + repeat constructor. cbn [event_within]. unfold saved_payload.
      rewrite saved_records_save.
      rewrite length_map, trim_history_last_n, last_n_length by done. lia.
Qed.

Lemma run_turns_trace (self : PaibotChat) (turns : list (str * str)) (w w' : World)
    (replies : list str) :
  (1 <= _history_window self)%Z ->
  run_turns self turns w = Ok (replies, w') ->
  exists events, trace w' = trace w ++ events
    /\ Forall (event_within (_history_window self)) events.
Proof.
  intros Hw. revert w replies.
  induction turns as [|[user_id message] turns IH]; intros w replies; cbn [run_turns].
  - intros [= <- <-]. exists []. by rewrite app_nil_r.
  - destruct (respond self user_id message w) as [[reply w1]|] eqn:Hr; [| done].
    cbn [mbind result_bind].
    destruct (run_turns self turns w1) as [[replies' w2]|] eqn:Hrun; [| done].
    cbn [mbind result_bind]. intros [= <- <-].
    destruct (respond_trace _ _ _ _ _ _ Hw Hr) as [ev1 [Ht1 Hev1]].
    destruct (IH _ _ Hrun) as [ev2 [Ht2 Hev2]].
    exists (ev1 ++ ev2). rewrite Ht2, Ht1, <- app_assoc. split; [done |].
    by apply Forall_app.
Qed.

(** What a turn persists: the loaded history and the two new records, cut
    to the most recent twice-the-window. *)
Lemma respond_persists (self : PaibotChat) (user_id message : str) (w w1 w2 : World)
    (history : list MemoryRecord) (reply : str) :
  (1 <= _history_window self)%Z ->
  strip message <> [] ->
  load_history (chatbot.memory self) user_id w = Ok (history, w1) ->
  respond self user_id message w = Ok (reply, w2) ->
  exists user_record assistant_record w3,
    content user_record = VStr (strip message)
    /\ content assistant_record = VStr reply
    /\ load_history (chatbot.memory self) user_id w2
       = Ok (last_n (Z.to_nat (_history_window self * 2))
                    (history ++ [user_record; assistant_record]), w3).
Proof.
  intros Hw Hm Hl Hr.
  destruct (respond_returns _ _ _ _ _ _ Hm Hr) as (history' & w1' & Hl' & _ & Hs).
  rewrite Hl in Hl'. injection Hl' as <- <-.
  rewrite trim_history_last_n in Hs by done. unfold turn_history in Hs.
  destruct (load_saved_history _ _ _ _ _ Hs) as [w3 [Hload _]].
  eexists _, _, w3. split; [| split; [| apply Hload]]; done.
Qed.

(** C2, amended.  For a chat built with [history_window = W] the window in
    force is [max W 1].  Over every sequence of turns, each history that
    is written holds at most twice the window of records and each prompt
    at most the window of prior records (besides the mention note and the
    message).  A turn persists the loaded history and its two new records
    with the oldest dropped first; the prompt holds the most recent
    records of the history, the oldest of them first. *)
Theorem history_window_bounds (memory_manager : MemoryManager)
    (persona : option PaimonPersona) (docs : CommandDocumentation)
    (model : list Event -> list value -> GenerationConfig -> Response)
    (W : Z) (mention_aliases : option (list str)) :
  let self := init memory_manager persona docs model W mention_aliases in
  let window := Z.max W 1 in
  (forall turns w replies w',
      run_turns self turns w = Ok (replies, w') ->
      exists events, trace w' = trace w ++ events
        /\ Forall (event_within window) events)
  /\ (forall user_id message w w1 w2 history reply,
        forallb isspace message = false ->
        load_history memory_manager user_id w = Ok (history, w1) ->
        respond self user_id message w = Ok (reply, w2) ->
        exists persisted dropped user_record assistant_record w3,
          load_history memory_manager user_id w2 = Ok (persisted, w3)
          /\ content user_record = VStr (strip message)
          /\ content assistant_record = VStr reply
          /\ history ++ [user_record; assistant_record] = dropped ++ persisted
          /\ Z.of_nat (length persisted)
             = Z.min (2 * window) (Z.of_nat (length history) + 2))
  /\ (forall history message mention,
        exists older recent,
          history = older ++ recent
          /\ Z.of_nat (length recent) = Z.min window (Z.of_nat (length history))
          /\ build_contents self history message mention
             = map prompt_turn recent
               ++ (if mention then [turn (py "user") (VStr MENTION_NOTE)] else [])
               ++ [turn (py "user") (VStr message)]).
Proof.
  intros self window.
  assert (_history_window self = window) as Hwin by reflexivity.
  assert (1 <= _history_window self)%Z as Hw by (rewrite Hwin; unfold window; lia).
  split; [| split].
  - intros turns w replies w' Hrun. rewrite <- Hwin. by eapply run_turns_trace.
  - intros user_id message w w1 w2 history reply Hb Hl Hr.
    assert (strip message <> []) as Hm.
    { intros H. apply strip_nil in H. congruence. }
    destruct (respond_persists self user_id message w w1 w2 history reply Hw Hm Hl Hr)
      as (u & a & w3 & Hu & Ha & Hload).
    eexists _, _, u, a, w3. split; [apply Hload |]. split; [done |]. split; [done |].
    split; [apply last_n_suffix |].
    rewrite last_n_length, length_app, Hwin. cbn [length]. lia.
  - intros history message mention.
    exists (take (length history - Z.to_nat window) history),
           (last_n (Z.to_nat window) history).
    split; [apply last_n_suffix |].
    split; [rewrite last_n_length; lia |].
    unfold build_contents. by rewrite recent_history_last_n, Hwin.
Qed.

End chatbot_facts.

(** ** Concrete runs *)

Section concrete_runs.
Import persona command_docs memory chatbot.
#[local] Existing Instance ascii_runtime.

(** Against C3 as stated: the key of an identity of unsafe characters
    only is made of underscores, not the fallback identity. *)
Lemma sanitize_slashes_not_anonymous :
  Forall (fun c => c ∉ safe_set) (py "///")
  /\ _sanitize_user_id demo.manager (py "///") = py "___"
  /\ _sanitize_user_id demo.manager (py "///") <> py "anonymous".
Proof.
  split; [| split; [reflexivity | by vm_compute]].
  apply Forall_forall. intros c Hc Hsafe. apply safe_char_spec in Hsafe.
  vm_compute in Hc. repeat (apply elem_of_cons in Hc as [-> | Hc]; [discriminate Hsafe |]).
  by apply elem_of_nil in Hc.
Qed.


(** Against C7 as stated: a text of dots has no fragment, and its
    styled form ends in the second emote, not in the one at index
    [0 mod emote_count]. *)
Lemma stylize_dots_second_emote :
  forallb isspace (py "...") = false
  /\ length (fragments (py "...")) = 0%nat
  /\ closing_emotes default_persona
       !! (length (fragments (py "...")) mod length (closing_emotes default_persona))%nat
     = Some (py "☆")
  /\ stylize default_persona (py "...") None
     = Ok (py "¡Paimon no encuentra palabras para esto! Paimon recuerda que es una bot guía. ✨").
Proof. repeat split; by vm_compute. Qed.


(** Against C2 as stated: with [history_window = 0] one turn persists
    two records, more than twice the configured window. *)
Lemma window_zero_persists_two_records :
  ('(_, w) ← respond (demo.chat 0) (py "ana") (py "Hola") demo.world0;
   '(persisted, _) ← load_history demo.manager (py "ana") w;
   Ok (Z.of_nat (length persisted) <=? 2 * 0)%Z)
  = Ok false.
Proof. by vm_compute. Qed.

(** C1 on the empty store: the model's text, trimmed. *)
Lemma respond_plain_hola :
  (fun r => match r with Ok (reply, _) => Some reply | Raise _ => None end)
    (respond (demo.chat 12) (py "ana") (py "  Hola  ") demo.world0)
  = Some (py "Hola, viajero.").
Proof.
  rewrite (respond_plain_is_model_text (demo.chat 12) (py "ana") (py "  Hola  ")
             demo.world0
             (log (EvExists (_memory_file demo.manager (py "ana"))) demo.world0) []).
  - vm_compute; reflexivity.
  - vm_compute; reflexivity.
  - vm_compute; reflexivity.
  - vm_compute; reflexivity.
  - vm_compute; reflexivity.
Defined.

(** C4 on a message that also contains another command name: the
    identifier behind the marker is resolved. *)
Lemma resolve_comando_spawn :
  option_map command_docs.name
    (_resolve_command_query (demo.chat 12) (py "jump? !comando spawn"))
  = Some (py "spawn").
Proof.
  destruct (command_pattern_takes_priority (demo.chat 12) (py "jump? !comando spawn"))
    as [candidate [Hsearch [_ Hresolve]]].
  - exists (py "spawn"), (py "jump? !"), (py "comando"), (py " "), [].
    split; [vm_compute; reflexivity |].
    split; [left; vm_compute; reflexivity |].
    split; [discriminate |]. split; [by repeat constructor |].
    split; [discriminate |]. by repeat constructor.
  - rewrite Hresolve. vm_compute in Hsearch. injection Hsearch as <-.
    vm_compute; reflexivity.
Defined.

(** C5 on a message of spaces. *)
Lemma respond_blank_spaces :
  respond (demo.chat 12) (py "ana") (py "   ") demo.world0
  = Ok (py "Paimon no escuchó nada, ¡intenta decir algo de nuevo!", demo.world0).
Proof.
  apply (respond_blank_message (demo.chat 12) (py "ana") (py "   ") demo.world0).
  vm_compute; reflexivity.
Defined.

(** C7 on a text of two fragments, the second starting with the name. *)
Lemma stylize_two_fragments :
  stylize default_persona (py "Hola. Paimon sabe?") None
  = Ok (py "Paimon piensa que hola! Paimon sabe? Paimon recuerda que es una bot guía. ♪").
Proof.
  destruct (stylize_decorates_fragments default_persona (py "Hola. Paimon sabe?") None)
    as [emote [Hemote [Hstyled _]]].
  - vm_compute; reflexivity.
  - discriminate.
  - rewrite Hstyled. vm_compute in Hemote. injection Hemote as <-.
    vm_compute; reflexivity.
Defined.



(** C10 on a mention, on the empty store. *)
Lemma respond_mention_nonempty :
  exists reply w',
    respond (demo.chat 12) (py "ana") (py "paimon, hola") demo.world0 = Ok (reply, w')
    /\ reply <> [].
Proof.
  destruct (respond_reply_nonempty (demo.chat 12) (py "ana") (py "paimon, hola")
              demo.world0) as [Hreply _].
  destruct (respond (demo.chat 12) (py "ana") (py "paimon, hola") demo.world0)
    as [[reply w']|e] eqn:Hr; [| by vm_compute in Hr].
  exists reply, w'. split; [reflexivity |]. exact (Hreply reply w' eq_refl).
Defined.

(** What cannot be stored raises: a message with a lone surrogate when
    the turn is saved, an identity of 251 letters when its file is looked
    for. *)
Example respond_raises_on_save :
  respond (demo.chat 12) (py "ana") [55357] demo.world0 = Raise UnicodeEncodeError
  /\ respond (demo.chat 12) samples.long_id (py "Hola") demo.world0 = Raise OSError
  /\ load_history demo.manager samples.long_id demo.world0 = Raise OSError.
Proof. repeat split; by vm_compute. Qed.

(** Without emotes a mention raises. *)
Example respond_mute_raises :
  respond (chatbot.init demo.manager (Some demo.mute) demo.docs
             (demo.model (py "Hola.")) 12 None)
          (py "ana") (py "paimon, hola") demo.world0
  = Raise ZeroDivisionError.
Proof. by vm_compute. Qed.

(** A session of three turns with [history_window = 1]: two records stay. *)
Example session_window_one :
  ('(_, w) ← run_turns (demo.chat 1)
               [(py "ana", py "Hola"); (py "ana", py "cmd: jump"); (py "ana", py "paibot?")]
               demo.world0;
   '(persisted, _) ← load_history demo.manager (py "ana") w;
   Ok (map content persisted))
  = Ok [VStr (py "paibot?");
        VStr (py "Paimon piensa que hola, viajero! Paimon recuerda que es una bot guía. ✨")].
Proof. by vm_compute. Qed.

(** The string operations on small inputs. *)
Example split_on_dots :
  split (py ".") (py "a.b..c") = [py "a"; py "b"; []; py "c"].
Proof. reflexivity. Qed.

Example split_on_blank_line :
  split [10; 10] (py "uno" ++ [10; 10; 10] ++ py "dos") = [py "uno"; 10 :: py "dos"].
Proof. reflexivity. Qed.

Example strip_spaces : strip (9 :: py "  hola  " ++ [10]) = py "hola".
Proof. reflexivity. Qed.

Example slice_from_examples :
  slice_from (-2) [1; 2; 3] = [2; 3] /\ slice_from (-5) [1; 2; 3] = [1; 2; 3]
  /\ slice_from 0 [1; 2; 3] = [1; 2; 3].
Proof. by vm_compute. Qed.

Example search_examples :
  COMMAND_PATTERN_search (py "oye /CMD::  x-y_z9 !") = Some (py "x-y_z9")
  /\ COMMAND_PATTERN_search (py "comandos jump") = None
  /\ COMMAND_PATTERN_search (py "command:") = None.
Proof. by vm_compute. Qed.

(** The documents keep the order of loading; the fuzzy match takes the
    first related key. *)
Example demo_commands : available_commands demo.docs = [py "jump"; py "spawn"].
Proof. by vm_compute. Qed.

Example fuzzy_first_match :
  option_map command_docs.name (find_best_match demo.docs (py "p")) = Some (py "jump")
  /\ option_map command_docs.name (find_best_match demo.docs (py "SPAWN")) = Some (py "spawn")
  /\ find_best_match demo.docs (py "fly") = None.
Proof. by vm_compute. Qed.

(** A command query is answered from the document, without the model. *)
Example respond_comando_jump :
  (fun r => match r with Ok (reply, w) => Some (reply, length (trace w)) | Raise _ => None end)
    (respond (demo.chat 12) (py "ana") (py "!comando jump") demo.world0)
  = Some (py "El comando `jump` funciona así:" ++ [10] ++ py "Salta un obstaculo."
          ++ [10; 10]
          ++ py "Puedes revisar el archivo `commands/Jump.md` para más ejemplos detallados.",
          2%nat).
Proof. by vm_compute. Qed.

End concrete_runs.

(** * Further properties *)

(** ** Memory Store: reading, errors, isolation *)

Section memory_further.
Context {R : PyRuntime}.
Import memory.

Lemma memory_file_eq (self : MemoryManager) (u1 u2 : str) :
  _memory_file self u1 = _memory_file self u2
  <-> _sanitize_user_id self u1 = _sanitize_user_id self u2.
Proof.
  unfold _memory_file, path_div. split; [| by intros ->].
  intros H. apply app_inv_head in H. injection H as H. by apply app_inv_tail in H.
Qed.

Lemma load_items_not_object (items : list value) (w : World) :
  Exists (fun item => ~ is_object item) items ->
  load_items items w = Raise AttributeError.
Proof.
  intros Hex. revert w. induction Hex as [item items Hitem | item items _ IH]; intros w.
  - cbn [load_items]. by destruct item.
  - rewrite load_items_of_item.
    destruct item as [| | | | |d]; try reflexivity.
    unfold of_item. cbn [value_get mbind result_bind]. by rewrite IH.
Qed.

Lemma load_items_objects (ds : list (dict value)) (w : World) :
  load_items (map VDict ds) w
  = Ok (imap (fun i d => record_with_defaults (utcnow (clock w + i)) d) ds,
        {| files := files w; clock := clock w + length ds; trace := trace w |}).
Proof.
  revert w. induction ds as [|d ds IH]; intros w.
  - cbn. rewrite Nat.add_0_r. by destruct w.
  - cbn [map]. rewrite load_items_of_item. unfold of_item.
    cbn [value_get mbind result_bind]. rewrite IH. cbn [mbind result_bind imap tick clock files trace length].
    rewrite Nat.add_0_r. f_equal. f_equal.
    + f_equal. apply imap_ext. intros i x _. cbn. f_equal. f_equal. lia.
    + f_equal. lia.
Qed.

(** The file of [user_id] holds [payload]: what [load_history] does after
    the test and the opening of the file. *)
Lemma load_history_payload (self : MemoryManager) (user_id : str) (w : World)
    (payload : value) :
  files w !! _memory_file self user_id = Some payload ->
  load_history self user_id w
  = (history ← value_get payload (py "history") (VList []);
     items ← iterate history;
     load_items items (log (EvRead (_memory_file self user_id))
                          (log (EvExists (_memory_file self user_id)) w))).
Proof. intros Hf. unfold load_history. cbn [log files]. by rewrite Hf. Qed.

(** X2.  A malformed memory file makes [load_history] raise, and which
    exception is fixed by the shape of the document: one that is not an
    object, or a history with an entry that is not an object, raises
    [AttributeError]; a history that is [null], a Boolean or a number
    raises [TypeError].  An object without the key "history" is an empty
    history. *)
Theorem load_history_malformed (self : MemoryManager) (user_id : str) (w : World)
    (payload : value) :
  files w !! _memory_file self user_id = Some payload ->
  (~ is_object payload -> load_history self user_id w = Raise AttributeError)
  /\ (forall d, payload = VDict d ->
        (dict_get (py "history") d = None ->
         exists w', load_history self user_id w = Ok ([], w'))
        /\ (forall v, dict_get (py "history") d = Some v -> is_scalar v ->
              load_history self user_id w = Raise TypeError)
        /\ (forall items, dict_get (py "history") d = Some (VList items) ->
              Exists (fun item => ~ is_object item) items ->
              load_history self user_id w = Raise AttributeError)).
Proof.
  intros Hf. rewrite (load_history_payload self user_id w payload Hf). split.
  - intros Hno. by destruct payload.
  - intros d ->. cbn [value_get mbind result_bind]. repeat split.
    + intros ->. by eexists.
    + intros v -> Hv. by destruct v.
    + intros items -> Hex. cbn [default from_option id iterate mbind result_bind].
      by apply load_items_not_object.
Qed.

(** X3.  A memory file whose history is a list of objects always loads:
    one record per object, in order; a field the object lacks takes its
    default ("assistant", the empty text, no metadata), and a missing
    timestamp the reading of the clock at that item's turn in the loop. *)
Theorem load_history_defaults (self : MemoryManager) (user_id : str) (w : World)
    (d : dict value) (ds : list (dict value)) :
  files w !! _memory_file self user_id = Some (VDict d) ->
  dict_get (py "history") d = Some (VList (map VDict ds)) ->
  exists w',
    load_history self user_id w
    = Ok (imap (fun i item => record_with_defaults (utcnow (clock w + i)) item) ds, w')
    /\ clock w' = (clock w + length ds)%nat.
Proof.
  intros Hf Hd. rewrite (load_history_payload self user_id w _ Hf).
  cbn [value_get mbind result_bind]. rewrite Hd.
  cbn [default from_option id iterate mbind result_bind].
  rewrite load_items_objects. by eexists.
Qed.

(** X4.  Saving for one user leaves the file of every user with another
    storage key as it was. *)
Theorem save_history_isolation (self : MemoryManager) (user_id other : str)
    (history : list MemoryRecord) (w w' : World) :
  _sanitize_user_id self user_id <> _sanitize_user_id self other ->
  save_history self user_id history w = Ok w' ->
  files w' !! _memory_file self other = files w !! _memory_file self other.
Proof.
  intros Hne Hs. apply save_history_Ok in Hs as ->. unfold write_file. cbn [files tick].
  apply lookup_insert_ne. by rewrite memory_file_eq.
Qed.

(** X5.  Two identities with the same storage key share one file: what
    a save that returns wrote for one is what is loaded for the other,
    whatever the file held before (a save replaces, it does not merge). *)
Theorem save_history_shared_key (self : MemoryManager) (user_id other : str)
    (history : list MemoryRecord) (w w1 : World) :
  _sanitize_user_id self user_id = _sanitize_user_id self other ->
  save_history self user_id history w = Ok w1 ->
  exists w', load_history self other w1 = Ok (history, w').
Proof.
  intros Heq Hs. destruct (load_saved_history self user_id history w w1 Hs) as [w' [Hl _]].
  exists w'. rewrite <- Hl. unfold load_history.
  by rewrite (proj2 (memory_file_eq self other user_id)).
Qed.

(** X6.  [extend] appends: it saves the history loaded before followed
    by the new records, in order, and when that save returns this is the
    history loaded afterwards; [append] is [extend] with one record. *)
Theorem extend_then_load (self : MemoryManager) (user_id : str)
    (records history : list MemoryRecord) (w w1 : World) :
  load_history self user_id w = Ok (history, w1) ->
  extend self user_id records w = save_history self user_id (history ++ records) w1
  /\ (forall w2, extend self user_id records w = Ok w2 ->
        exists w3, load_history self user_id w2 = Ok (history ++ records, w3))
  /\ forall record, append self user_id record w = extend self user_id [record] w.
Proof.
  intros Hl.
  assert (extend self user_id records w
          = save_history self user_id (history ++ records) w1) as Hext.
  { unfold extend. by rewrite Hl. }
  split; [exact Hext |]. split; [| done].
  intros w2. rewrite Hext. intros Hs.
  destruct (load_saved_history self user_id (history ++ records) w1 w2 Hs) as [w3 [Hl3 _]].
  by exists w3.
Qed.

Lemma sanitize_char_fixed (c : N) : safe_char c = true -> sanitize_char c = c.
Proof. unfold sanitize_char. by intros ->. Qed.

Lemma sanitize_chars_safe (user_id : str) :
  Forall (fun c => safe_char c = true) (map sanitize_char user_id).
Proof.
  apply Forall_forall. intros c Hc.
  apply list_elem_of_fmap in Hc as [x [-> _]]. apply sanitize_char_safe.
Qed.

Lemma sanitize_safe_fixed (self : MemoryManager) (user_id : str) :
  user_id <> [] -> Forall (fun c => safe_char c = true) user_id ->
  _sanitize_user_id self user_id = user_id.
Proof.
  intros Hne Hall. rewrite sanitize_nonempty by done.
  clear Hne. induction Hall as [|c u Hc _ IH]; [done |].
  simpl. by rewrite IH, sanitize_char_fixed.
Qed.

Lemma sanitize_key_safe (self : MemoryManager) (user_id : str) :
  _sanitize_user_id self user_id <> []
  /\ Forall (fun c => safe_char c = true) (_sanitize_user_id self user_id).
Proof.
  destruct user_id as [|c u].
  - split; [by vm_compute |]. apply Forall_forall. intros c Hc.
    assert (forallb safe_char (_sanitize_user_id self []) = true) as Hall by (by vm_compute).
    apply (proj1 (forallb_forall _ _) Hall). by apply list_elem_of_In.
  - rewrite sanitize_nonempty by done. split; [done |]. apply sanitize_chars_safe.
Qed.

(** X7.  A storage key is its own storage key: sanitizing is idempotent,
    it keeps the length of a non-empty identity, and it returns a
    non-empty identity of safe characters unchanged. *)
Theorem sanitize_user_id_idempotent (self : MemoryManager) (user_id : str) :
  _sanitize_user_id self (_sanitize_user_id self user_id) = _sanitize_user_id self user_id
  /\ (user_id <> [] -> length (_sanitize_user_id self user_id) = length user_id)
  /\ (user_id <> [] -> Forall (fun c => c ∈ safe_set) user_id ->
      _sanitize_user_id self user_id = user_id).
Proof.
  destruct (sanitize_key_safe self user_id) as [Hne Hsafe]. repeat split.
  - by apply sanitize_safe_fixed.
  - intros Hu. rewrite sanitize_nonempty by done. apply length_map.
  - intros Hu Hall. apply sanitize_safe_fixed; [done |].
    eapply Forall_impl; [apply Hall |]. intros c Hc. by apply safe_char_spec.
Qed.

(** X8.  The memory file of any identity lies directly in the base
    directory: its path is the base directory and one file name, and that
    name contains no [/] and no NUL, ends in ".json", and is neither "."
    nor "..". *)
Theorem memory_file_inside_base (self : MemoryManager) (user_id : str) :
  exists filename,
    _memory_file self user_id = _base_directory self ++ [filename]
    /\ (47 ∉ filename) /\ (0 ∉ filename)
    /\ (exists key, key <> [] /\ filename = key ++ py ".json")
    /\ filename <> py "." /\ filename <> py "..".
Proof.
  destruct (sanitize_key_safe self user_id) as [Hne Hsafe].
  exists (_sanitize_user_id self user_id ++ py ".json").
  assert (forall c, safe_char c = false ->
            c ∉ py ".json" -> c ∉ _sanitize_user_id self user_id ++ py ".json") as Hnot.
  { intros c Hc Hext Hin. apply elem_of_app in Hin as [Hin | Hin]; [| done].
    rewrite Forall_forall in Hsafe. specialize (Hsafe c Hin). congruence. }
  split; [done |].
  split; [apply Hnot; [done | by vm_compute; intros H; repeat (apply elem_of_cons in H as [H | H]; [done |]); apply elem_of_nil in H] |].
  split; [apply Hnot; [done | by vm_compute; intros H; repeat (apply elem_of_cons in H as [H | H]; [done |]); apply elem_of_nil in H] |].
  split; [by eexists |].
  split; intros H; apply (f_equal length) in H; rewrite length_app in H;
    change (length (py ".json")) with 5%nat in H;
    destruct (_sanitize_user_id self user_id); try done; cbn [length] in H;
    [change (length (py ".")) with 1%nat in H | change (length (py "..")) with 2%nat in H];
    lia.
Qed.

End memory_further.

(** ** Command Reference: loading, lookup, summary *)

Section command_docs_further.
Context {R : PyRuntime}.
Import command_docs.

Lemma dict_get_set_eq {V} (k : str) (v : V) (d : dict V) :
  dict_get k (dict_set k v d) = Some v.
Proof.
  induction d as [|[k' v'] d IH]; simpl; [by rewrite str_eqb_refl |].
  destruct (str_eqb k' k) eqn:Hk; simpl; by rewrite Hk.
Qed.

Lemma dict_get_set_ne {V} (k k' : str) (v : V) (d : dict V) :
  k <> k' -> dict_get k' (dict_set k v d) = dict_get k' d.
Proof.
  intros Hne. induction d as [|[k0 v0] d IH]; simpl.
  - by rewrite (proj2 (str_eqb_neq k k')).
  - destruct (str_eqb k0 k) eqn:Hk; simpl; [| by rewrite IH].
    apply str_eqb_eq in Hk. subst k0. by rewrite (proj2 (str_eqb_neq k k')).
Qed.

Lemma dict_set_NoDup {V} (k : str) (v : V) (d : dict V) :
  NoDup (map fst d) -> NoDup (map fst (dict_set k v d)).
Proof.
  intros Hd. rewrite dict_set_keys. destruct (dict_get k d) eqn:Hk; [done |].
  apply NoDup_app. split; [done |]. split; [| apply NoDup_singleton].
  intros x Hx Hx'. apply list_elem_of_singleton in Hx'. subst x.
  by apply dict_get_None in Hk.
Qed.

Lemma dict_set_Forall {V} (P : str * V -> Prop) (k : str) (v : V) (d : dict V) :
  Forall P d -> (forall k', k' = k -> P (k', v)) -> Forall P (dict_set k v d).
Proof.
  intros Hd Hk. induction Hd as [|[k' v'] d Hx Hd IH]; simpl.
  - constructor; [by apply Hk | done].
  - destruct (str_eqb k' k) eqn:Heq; constructor; try done.
    apply Hk. by apply str_eqb_eq.
Qed.

Lemma documents_init (files : list MdFile) :
  _documents (init (Some files)) = fold_left load_step files [].
Proof. reflexivity. Qed.

Lemma fold_load_NoDup (files : list MdFile) (docs : dict CommandDocument) :
  NoDup (map fst docs) -> NoDup (map fst (fold_left load_step files docs)).
Proof.
  revert docs. induction files as [|f files IH]; intros docs Hd; [done |].
  apply IH. by apply dict_set_NoDup.
Qed.

Lemma fold_load_named (files : list MdFile) (docs : dict CommandDocument) :
  Forall (fun kv => name kv.2 = kv.1) docs ->
  Forall (fun kv => name kv.2 = kv.1) (fold_left load_step files docs).
Proof.
  revert docs. induction files as [|f files IH]; intros docs Hd; [done |].
  apply IH. apply dict_set_Forall; [done |]. by intros k' ->.
Qed.

Lemma fold_load_keys (files : list MdFile) (docs : dict CommandDocument) (k : str) :
  k ∈ map fst (fold_left load_step files docs)
  <-> k ∈ map fst docs \/ exists f, f ∈ files /\ lower (md_stem f) = k.
Proof.
  revert docs. induction files as [|f files IH]; intros docs.
  - simpl. split; [by left | intros [H | [f [Hf _]]]; [done | by apply elem_of_nil in Hf]].
  - cbn [fold_left]. rewrite IH. unfold load_step. rewrite dict_set_keys.
    split.
    + intros [Hk | [g [Hg Hk]]].
      * destruct (dict_get _ docs); [by left |].
        apply elem_of_app in Hk as [Hk | Hk]; [by left |].
        apply list_elem_of_singleton in Hk. right. exists f. split; [left | done].
      * right. exists g. split; [by right | done].
    + intros [Hk | [g [Hg Hk]]].
      * left. destruct (dict_get _ docs); [done | apply elem_of_app; by left].
      * apply elem_of_cons in Hg as [-> | Hg]; [| right; by exists g].
        left. subst k. destruct (dict_get _ docs) eqn:Hd.
        -- apply dict_get_Some in Hd. apply list_elem_of_fmap. by eexists (_, _).
        -- apply elem_of_app. right. by apply list_elem_of_singleton.
Qed.

Lemma fold_load_other (files : list MdFile) (docs : dict CommandDocument) (k : str) :
  Forall (fun g => lower (md_stem g) <> k) files ->
  dict_get k (fold_left load_step files docs) = dict_get k docs.
Proof.
  intros Hall. revert docs. induction Hall as [|f files Hf _ IH]; intros docs; [done |].
  cbn [fold_left]. rewrite IH. by apply dict_get_set_ne.
Qed.

(** X9.  The documents loaded from a directory listing: the keys are
    pairwise distinct and are exactly the lower-cased stems of the files;
    each document carries its key as its name; and under the stem of a
    file, [get] finds the text and path of the last file of the listing
    with that lower-cased stem. *)
Theorem load_documents_keys (files : list MdFile) :
  let docs := init (Some files) in
  NoDup (available_commands docs)
  /\ Forall (fun kv => name kv.2 = kv.1) (_documents docs)
  /\ (forall k, k ∈ available_commands docs
                <-> exists f, f ∈ files /\ lower (md_stem f) = k)
  /\ (forall before f after,
        files = before ++ f :: after ->
        Forall (fun g => lower (md_stem g) <> lower (md_stem f)) after ->
        get docs (md_stem f)
        = Some {| name := lower (md_stem f); content := md_text f; path := md_path f |}).
Proof.
  intros docs. unfold available_commands, get. subst docs. rewrite documents_init.
  split; [apply fold_load_NoDup, NoDup_nil_2 |].
  split; [by apply fold_load_named |].
  split.
  - intros k. rewrite fold_load_keys. split; [intros [H | H]; [by apply elem_of_nil in H | done] | by right].
  - intros before f after -> Hafter.
    rewrite fold_left_app. cbn [fold_left].
    rewrite fold_load_other by done. apply dict_get_set_eq.
Qed.

Lemma first_related_sound (q : str) (items : dict CommandDocument) (d : CommandDocument) :
  first_related q items = Some d -> exists k, (k, d) ∈ items /\ related k q.
Proof.
  induction items as [|[k d'] items IH]; simpl; [done |].
  destruct (contains k q || contains q k) eqn:Hr.
  - intros [= ->]. exists k. split; [left | by apply related_spec].
  - intros H. destruct (IH H) as [k' [Hin Hrel]]. exists k'. split; [by right | done].
Qed.

Lemma find_best_match_loaded (self : CommandDocumentation) (query : str)
    (d : CommandDocument) :
  find_best_match self query = Some d ->
  exists k, (k, d) ∈ _documents self /\ related k (lower query).
Proof.
  unfold find_best_match.
  destruct (dict_get (lower query) (_documents self)) as [d'|] eqn:Hget.
  - intros [= ->]. exists (lower query). split; [by apply dict_get_Some |].
    left. apply substring_refl.
  - apply first_related_sound.
Qed.

(** X10.  [find_best_match] only answers with a loaded document, and one
    whose key occurs in the lowered query or contains it; so on an empty
    documentation it finds nothing. *)
Theorem find_best_match_sound (self : CommandDocumentation) (query : str)
    (d : CommandDocument) :
  find_best_match self query = Some d ->
  exists k, (k, d) ∈ _documents self /\ related k (lower query).
Proof. apply find_best_match_loaded. Qed.

(** Splitting and joining back. *)
Lemma split_go_nonempty (sep s acc : str) (k : nat) : split_go sep s acc k <> [].
Proof.
  revert acc k. induction s as [|c s IH]; intros acc k; simpl; [done |].
  destruct k; [| apply IH]. destruct (startswith sep (c :: s)); [done | apply IH].
Qed.

Lemma join_cons (sep p : str) (rest : list str) :
  rest <> [] -> join sep (p :: rest) = p ++ sep ++ join sep rest.
Proof. by destruct rest. Qed.

Lemma split_go_join (sep s acc : str) (k : nat) :
  sep <> [] -> join sep (split_go sep s acc k) = rev acc ++ drop k s.
Proof.
  intros Hsep. revert acc k. induction s as [|c s IH]; intros acc k.
  - simpl. by rewrite drop_nil, app_nil_r.
  - cbn [split_go]. destruct k as [|k]; [| by rewrite IH].
    destruct (startswith sep (c :: s)) eqn:Hst.
    + rewrite join_cons by apply split_go_nonempty. rewrite IH.
      apply startswith_spec in Hst as [post Hpost].
      destruct sep as [|c' sep']; [done |]. injection Hpost as -> ->.
      cbn [length Nat.pred rev app]. by rewrite drop_app_length.
    + rewrite IH. cbn [rev drop]. by rewrite <- app_assoc.
Qed.

Lemma join_split (sep s : str) : sep <> [] -> join sep (split sep s) = s.
Proof. intros Hsep. unfold split. by rewrite split_go_join. Qed.

Lemma substring_trans (a b c : str) : substring a b -> substring b c -> substring a c.
Proof.
  intros (p1 & q1 & ->) (p2 & q2 & ->). exists (p2 ++ p1), (q1 ++ q2).
  by rewrite <- !app_assoc.
Qed.

Lemma piece_substring (sep p : str) (parts : list str) :
  p ∈ parts -> substring p (join sep parts).
Proof.
  induction parts as [|q parts IH]; [intros H; by apply elem_of_nil in H |].
  intros Hin. destruct parts as [|q' parts].
  - apply list_elem_of_singleton in Hin. subst. apply substring_refl.
  - rewrite join_cons by done. apply elem_of_cons in Hin as [-> | Hin].
    + exists [], (sep ++ join sep (q' :: parts)). done.
    + destruct (IH Hin) as (pre & post & ->).
      exists (q ++ sep ++ pre), post. by rewrite <- !app_assoc.
Qed.

Lemma lstrip_suffix (s : str) : exists pre, s = pre ++ lstrip s.
Proof.
  induction s as [|c s [pre IH]]; [by exists [] |]. simpl.
  destruct (isspace c); [| by exists []]. exists (c :: pre). simpl. by rewrite <- IH.
Qed.

Lemma strip_substring (s : str) : substring (strip s) s.
Proof.
  unfold strip, rstrip. destruct (lstrip_suffix s) as [pre Hs].
  destruct (lstrip_suffix (rev (lstrip s))) as [post Hr].
  exists pre, (rev post). rewrite <- rev_app_distr, <- Hr, rev_involutive. done.
Qed.

Lemma substring_blank (a b : str) :
  substring a b -> forallb isspace b = true -> forallb isspace a = true.
Proof.
  intros (pre & post & ->). rewrite !forallb_app, !andb_true_iff. tauto.
Qed.

(** X11.  The summary of a document is an excerpt of its content, without
    white space at either end; it is empty only for a document that is
    blank. *)
Theorem summary_excerpt (self : CommandDocument) :
  substring (summary self) (content self)
  /\ strip (summary self) = summary self
  /\ (summary self = [] <-> forallb isspace (content self) = true).
Proof.
  assert ([10; 10] <> []) as Hsep by done.
  pose proof (join_split [10; 10] (content self) Hsep) as Hjoin.
  unfold summary.
  destruct (filter _ (split [10; 10] (content self))) as [|first rest] eqn:Hf; cbn [map].
  - split; [apply strip_substring |]. split; [apply strip_idemp |]. apply strip_nil.
  - assert (first ∈ filter (fun section => truthy (strip section) = true)
                           (split [10; 10] (content self))) as Hin
      by (rewrite Hf; left).
    apply list_elem_of_filter in Hin as [Hfirst Hin].
    apply (piece_substring [10; 10]) in Hin. rewrite Hjoin in Hin.
    split; [eapply substring_trans; [apply strip_substring | done] |].
    split; [apply strip_idemp |].
    apply truthy_true in Hfirst. split; [done |].
    intros Hblank. destruct Hfirst. apply strip_nil. by eapply substring_blank.
Qed.

End command_docs_further.

(** ** Persona Transformer: errors and fixed points *)

Section persona_further.
Context {R : PyRuntime}.
Import persona.

(** X12.  [stylize] raises only for a persona without emotes on a text
    that is not blank, and then [ZeroDivisionError]; a blank text gets the
    fixed sentence from any persona. *)
Theorem stylize_raises_iff (p : PaimonPersona) (text : str)
    (context_tags : option (list str)) :
  (forall e, stylize p text context_tags = Raise e
             <-> closing_emotes p = [] /\ forallb isspace text = false
                 /\ e = ZeroDivisionError)
  /\ (forallb isspace text = true ->
      stylize p text context_tags
      = Ok (py "¡Paimon está un poco confundida ahora mismo!")).
Proof.
  split.
  - intros e. destruct (decide (strip text = [])) as [Hb | Hs].
    + split.
      * unfold stylize. by rewrite Hb.
      * intros (_ & Hn & _). apply strip_nil in Hb. congruence.
    + assert (forallb isspace text = false) as Hn.
      { destruct (forallb isspace text) eqn:H; [| done]. by apply strip_nil in H. }
      rewrite stylize_unfold by done.
      destruct (closing_emotes p) as [|e0 es] eqn:He.
      * rewrite lookup_nil. split; [by intros [= <-] | by intros (_ & _ & ->)].
      * destruct ((e0 :: es) !! _) as [emote|] eqn:Hl; [split; [done | by intros [? _]] |].
        apply lookup_ge_None in Hl. cbn [length] in Hl.
        pose proof (Nat.mod_upper_bound (length (decorated_of p text)) (S (length es))). lia.
  - intros Hb. unfold stylize. by rewrite (proj2 (strip_nil text) Hb).
Qed.

Lemma decorate_sentence_strip (p : PaimonPersona) (s : str) :
  _decorate_sentence p s
  = if decide (strip s = []) then Ok [] else Ok (decorate_spec p (strip s)).
Proof.
  case_decide as Hs.
  - unfold _decorate_sentence. by rewrite Hs.
  - rewrite <- (decorate_sentence_spec p (strip s)) by (by rewrite ?strip_idemp).
    unfold _decorate_sentence. by rewrite strip_idemp.
Qed.

(** X13.  [_decorate_sentence] never raises: a blank sentence gives the
    empty text, any other a sentence that ends in [!] or [?] and contains
    the trimmed input from its second character on (the first may have
    been lower-cased). *)
Theorem decorate_sentence_total (p : PaimonPersona) (s : str) :
  exists r,
    _decorate_sentence p s = Ok r
    /\ (forallb isspace s = true -> r = [])
    /\ (forallb isspace s = false ->
        ends_in_mark r = true /\ exists pre post, r = pre ++ drop 1 (strip s) ++ post).
Proof.
  rewrite decorate_sentence_strip. case_decide as Hs.
  - exists []. split; [done |]. split; [done |].
    intros Hn. apply strip_nil in Hs. congruence.
  - eexists. split; [done |]. split.
    + intros Hb. by apply strip_nil in Hb.
    + intros _. split; [apply decorate_spec_ends |].
      unfold decorate_spec, third_person.
      destruct (referential_third_person p && _).
      * destruct (ends_in_mark _).
        -- exists (name p ++ py " piensa que " ++ lower (take 1 (strip s))), [].
           by rewrite app_nil_r, <- !app_assoc.
        -- exists (name p ++ py " piensa que " ++ lower (take 1 (strip s))), (py "!").
           by rewrite <- !app_assoc.
      * destruct (ends_in_mark _).
        -- eexists (take 1 (strip s)), []. by rewrite app_nil_r, take_drop.
        -- eexists (take 1 (strip s)), (py "!"). by rewrite app_assoc, take_drop.
Qed.

Lemma strip_fixed_lstrip (f : str) : strip f = f -> lstrip f = f.
Proof.
  intros Hf. rewrite <- Hf at 2. rewrite <- Hf at 1. unfold strip.
  rewrite rstrip_keeps_head by apply lstrip_idemp.
  unfold strip in Hf. by rewrite !Hf.
Qed.

Lemma strip_snoc_mark (f : str) (c : N) :
  strip f = f -> isspace c = false -> strip (f ++ [c]) = f ++ [c].
Proof.
  intros Hf Hc. unfold strip. rewrite lstrip_snoc, (strip_fixed_lstrip f Hf) by done.
  unfold rstrip. rewrite rev_app_distr. simpl. rewrite Hc.
  change (c :: rev f) with ([c] ++ rev f). by rewrite rev_app_distr, rev_involutive.
Qed.

(** X14.  With the third-person rewriting switched off, decorating is
    idempotent: a decorated sentence is returned as it is. *)
Theorem decorate_sentence_idempotent (p : PaimonPersona) (s r : str) :
  referential_third_person p = false ->
  _decorate_sentence p s = Ok r ->
  _decorate_sentence p r = Ok r.
Proof.
  intros Hoff. rewrite decorate_sentence_strip. case_decide as Hs.
  - intros [= <-]. by rewrite decorate_sentence_strip.
  - intros [= <-].
    assert (forall f, third_person p f = f) as Htp.
    { intros f. unfold third_person. by rewrite Hoff. }
    assert (forall f, strip f = f -> f <> [] -> ends_in_mark f = true ->
              _decorate_sentence p f = Ok f) as Hfix.
    { intros f Hf Hne Hm. rewrite decorate_sentence_spec by done.
      unfold decorate_spec. by rewrite Htp, Hm. }
    unfold decorate_spec. rewrite Htp.
    destruct (ends_in_mark (strip s)) eqn:Hm.
    + apply Hfix; [apply strip_idemp | done | done].
    + apply Hfix.
      * apply strip_snoc_mark; [apply strip_idemp | done].
      * intros H. by apply app_eq_nil in H as [_ H].
      * by rewrite ends_in_mark_app.
Qed.

Lemma replace_newline_map (s : str) :
  replace_char 10 (py " ") s = map (fun c => if c =? 10 then 32 else c) s.
Proof.
  unfold replace_char. induction s as [|c s IH]; [done |].
  simpl. rewrite IH. by destruct (c =? 10).
Qed.

Lemma isspace_newline (c : N) : isspace (if c =? 10 then 32 else c) = isspace c.
Proof. destruct (c =? 10) eqn:Hc; [| done]. apply N.eqb_eq in Hc. by subst c. Qed.

Lemma lstrip_newline_map (s : str) :
  lstrip (map (fun c => if c =? 10 then 32 else c) s)
  = map (fun c => if c =? 10 then 32 else c) (lstrip s).
Proof.
  induction s as [|c s IH]; [done |]. cbn [map lstrip].
  rewrite isspace_newline. by destruct (isspace c).
Qed.

Lemma strip_newline_map (s : str) :
  strip (map (fun c => if c =? 10 then 32 else c) s)
  = map (fun c => if c =? 10 then 32 else c) (strip s).
Proof.
  unfold strip, rstrip.
  by rewrite lstrip_newline_map, <- map_rev, lstrip_newline_map, map_rev.
Qed.

(** X15.  A line break counts as a space: replacing the newlines of a
    text by spaces does not change what [stylize] returns. *)
Theorem stylize_newline_as_space (p : PaimonPersona) (text : str)
    (context_tags : option (list str)) :
  stylize p (replace_char 10 (py " ") text) context_tags = stylize p text context_tags.
Proof.
  unfold stylize. rewrite !replace_newline_map, strip_newline_map.
  rewrite map_map.
  assert (map (fun c => if (if c =? 10 then 32 else c) =? 10 then 32
                        else if c =? 10 then 32 else c) (strip text)
          = map (fun c => if c =? 10 then 32 else c) (strip text)) as ->.
  { apply map_ext. intros c. destruct (c =? 10) eqn:Hc; [done | by rewrite Hc]. }
  by destruct (strip text).
Qed.

End persona_further.

(** ** Conversation Orchestrator: pattern, windows, effects *)

Section chatbot_further.
Context {R : PyRuntime}.
Import persona command_docs memory chatbot.

(** X16.  The search decides the command pattern: it finds nothing
    exactly when the pattern occurs nowhere in the message, and what it
    captures is the identifier of an occurrence. *)
Theorem search_decides_pattern (message : str) :
  (COMMAND_PATTERN_search message = None <-> ~ pattern_occurs message)
  /\ (forall name, COMMAND_PATTERN_search message = Some name -> pattern_at message name).
Proof.
  split; [| intros name; apply search_sound]. split.
  - intros Hnone Hocc. apply search_complete in Hocc as [name Hname]. congruence.
  - intros Hno. destruct (COMMAND_PATTERN_search message) as [name|] eqn:Hs; [| done].
    destruct Hno. exists name. by apply search_sound.
Qed.

Lemma last_n_last_n {A} (n m : nat) (l : list A) :
  (n <= m)%nat -> last_n n (last_n m l) = last_n n l.
Proof.
  intros Hnm. unfold last_n. rewrite length_drop, drop_drop. f_equal. lia.
Qed.

(** X17.  Trimming the history never changes the next prompt: the window
    of the most recent records of the trimmed history is that of the whole
    history, for any configured window; and trimming twice is trimming
    once. *)
Theorem recent_of_trimmed (memory_manager : MemoryManager)
    (persona : option PaimonPersona) (docs : CommandDocumentation)
    (model : list Event -> list value -> GenerationConfig -> Response)
    (W : Z) (mention_aliases : option (list str)) (history : list MemoryRecord) :
  let self := init memory_manager persona docs model W mention_aliases in
  _recent_history self (_trim_history self history) = _recent_history self history
  /\ _trim_history self (_trim_history self history) = _trim_history self history.
Proof.
  intros self.
  assert (1 <= _history_window self)%Z as Hw by (cbn; lia).
  rewrite !recent_history_last_n, !trim_history_last_n by done.
  split; apply last_n_last_n; lia.
Qed.

Lemma respond_not_loaded (self : PaibotChat) (user_id message : str) (w : World) (e : exn) :
  strip message <> [] ->
  load_history (chatbot.memory self) user_id w = Raise e ->
  respond self user_id message w = Raise e.
Proof.
  intros Hm Hl. unfold respond. by rewrite (proj2 (truthy_true _) Hm), Hl.
Qed.

Lemma load_history_events (self : MemoryManager) (user_id : str) (w w' : World)
    (history : list MemoryRecord) :
  load_history self user_id w = Ok (history, w') ->
  exists events, trace w' = trace w ++ events
    /\ List.filter calls_model events = [] /\ List.filter writes_file events = [].
Proof.
  intros Hl. apply load_history_frame in Hl as [_ [events [Ht Hev]]].
  exists events. split; [done |]. clear Ht.
  induction Hev as [|e events He _ IH]; [done |].
  destruct IH as [IH1 IH2]. by destruct e.
Qed.

(** X18.  The effects of one turn: a blank message causes none; any
    other message writes the memory file exactly once, and calls the model
    once when no command document resolved and not at all when one did. *)
Theorem respond_effects (self : PaibotChat) (user_id message : str) (w w' : World)
    (reply : str) :
  respond self user_id message w = Ok (reply, w') ->
  exists events,
    trace w' = trace w ++ events
    /\ length (List.filter calls_model events)
       = (if decide (strip message = []) then 0
          else match _resolve_command_query self (strip message) with
               | Some _ => 0
               | None => 1
               end)%nat
    /\ length (List.filter writes_file events)
       = (if decide (strip message = []) then 0 else 1)%nat.
Proof.
  case_decide as Hm.
  - unfold respond. rewrite Hm. cbn [truthy negb]. intros [= <- <-].
    exists []. by rewrite app_nil_r.
  - intros Hr. destruct (respond_returns _ _ _ _ _ _ Hm Hr) as (history & w1 & Hl & _ & Hs).
    apply load_history_events in Hl as (ev1 & Ht1 & Hg1 & Hw1).
    apply save_history_Ok in Hs as ->.
    unfold write_file, base_reply. cbn [trace tick].
    destruct (_resolve_command_query self (strip message)) as [document|].
    + cbn [snd]. eexists (ev1 ++ [_]). rewrite Ht1, <- app_assoc. split; [done |].
      rewrite !List.filter_app, Hg1, Hw1. by split.
    + unfold _generate_model_reply. cbn [snd log trace].
      eexists (ev1 ++ [_; _]). rewrite Ht1, <- !app_assoc. split; [done |].
      rewrite !List.filter_app, Hg1, Hw1. by split.
Qed.

(** X19.  A turn changes no memory file but the user's own. *)
Theorem respond_other_files (self : PaibotChat) (user_id message : str) (w w' : World)
    (reply : str) (path : Path) :
  respond self user_id message w = Ok (reply, w') ->
  path <> _memory_file (chatbot.memory self) user_id ->
  files w' !! path = files w !! path.
Proof.
  intros Hr Hpath. destruct (decide (strip message = [])) as [Hm | Hm].
  - revert Hr. unfold respond. rewrite Hm. cbn [truthy negb]. by intros [= <- <-].
  - destruct (respond_returns _ _ _ _ _ _ Hm Hr) as (history & w1 & Hl & _ & Hs).
    apply load_history_frame in Hl as [Hf1 _].
    apply save_history_Ok in Hs as ->.
    unfold write_file. cbn [files tick].
    rewrite lookup_insert_ne by done. by rewrite base_reply_files, Hf1.
Qed.

(** *** Exchanges *)

Lemma drop_exchanges (k : nat) (pairs : list (MemoryRecord * MemoryRecord)) :
  drop (2 * k) (flat_map exchange pairs) = flat_map exchange (drop k pairs).
Proof.
  revert pairs. induction k as [|k IH]; intros pairs; [done |].
  replace (2 * S k)%nat with (S (S (2 * k))) by lia.
  destruct pairs as [|pair pairs]; [done |]. cbn [flat_map exchange app drop]. apply IH.
Qed.

Lemma length_exchanges (pairs : list (MemoryRecord * MemoryRecord)) :
  length (flat_map exchange pairs) = (2 * length pairs)%nat.
Proof. induction pairs as [|pair pairs IH]; [done |]. cbn [flat_map exchange app length]. lia. Qed.

Lemma trim_exchanges (self : PaibotChat) (pairs : list (MemoryRecord * MemoryRecord)) :
  exists k, _trim_history self (flat_map exchange pairs) = flat_map exchange (drop k pairs).
Proof.
  unfold _trim_history. cbn zeta. destruct (_ <=? _)%Z; [by exists 0%nat |].
  unfold slice_from. rewrite length_exchanges. destruct (_ <? 0)%Z eqn:Hneg.
  - apply Z.ltb_lt in Hneg. exists (length pairs - Z.to_nat (_history_window self))%nat.
    rewrite <- drop_exchanges. f_equal. lia.
  - apply Z.ltb_ge in Hneg. exists (Z.to_nat (- _history_window self)).
    rewrite <- drop_exchanges. f_equal. lia.
Qed.

Lemma alternating_trim (self : PaibotChat) (history : list MemoryRecord) :
  alternating history -> alternating (_trim_history self history).
Proof.
  intros (pairs & -> & Hroles). destruct (trim_exchanges self pairs) as [k ->].
  exists (drop k pairs). split; [done | by apply Forall_drop].
Qed.

Lemma alternating_turn (history : list MemoryRecord) (message final : str)
    (mention : bool) (w : World) :
  alternating history -> alternating (turn_history history message final mention w).
Proof.
  intros (pairs & -> & Hroles). unfold turn_history.
  eexists (pairs ++ [(_, _)]). rewrite flat_map_app. split; [done |].
  apply Forall_app. split; [done |]. by repeat constructor.
Qed.

Lemma store_alternating_load (self : MemoryManager) (user_id : str) (w w1 : World)
    (history : list MemoryRecord) :
  store_alternating w ->
  load_history self user_id w = Ok (history, w1) -> alternating history.
Proof.
  intros Hok Hl.
  destruct (files w !! _memory_file self user_id) as [payload|] eqn:Hf.
  - destruct (Hok _ _ Hf) as (uid & records & now & -> & Halt).
    destruct (load_written_history self user_id uid now records w Hf) as [w2 [Hl2 _]].
    rewrite Hl2 in Hl. by injection Hl as <- _.
  - revert Hl. unfold load_history. cbn [log files]. rewrite Hf.
    destruct (name_too_long _); [done |]. intros [= <- _]. by exists [].
Qed.

Lemma store_alternating_save (self : MemoryManager) (user_id : str)
    (history : list MemoryRecord) (w w0 w' : World) :
  files w = files w0 -> store_alternating w0 -> alternating history ->
  save_history self user_id history w = Ok w' -> store_alternating w'.
Proof.
  intros Hf Hok Halt Hs path payload. apply save_history_Ok in Hs as ->.
  unfold write_file, saved_payload. cbn [files tick].
  rewrite lookup_insert. case_decide as Hp.
  - intros [= <-]. by eexists _, _, _.
  - rewrite Hf. apply Hok.
Qed.

Lemma respond_alternating (self : PaibotChat) (user_id message : str) (w w' : World)
    (reply : str) :
  store_alternating w ->
  respond self user_id message w = Ok (reply, w') -> store_alternating w'.
Proof.
  intros Hok. destruct (decide (strip message = [])) as [Hm | Hm].
  - unfold respond. rewrite Hm. cbn [truthy negb]. by intros [= <- <-].
  - intros Hr. destruct (respond_returns _ _ _ _ _ _ Hm Hr) as (history & w1 & Hl & _ & Hs).
    pose proof (store_alternating_load _ _ _ _ _ Hok Hl) as Halt.
    apply load_history_frame in Hl as [Hf1 _].
    refine (store_alternating_save _ _ _ _ w _ _ Hok _ Hs).
    + cbn [files tick]. by rewrite base_reply_files.
    + by apply alternating_trim, alternating_turn.
Qed.

(** X20.  Histories stay made of exchanges.  If every memory file holds
    a saved history in which user and assistant records alternate, a user
    record first (as in the empty store), then so it is after any session,
    for any window; and every history loaded afterwards alternates. *)
Theorem session_histories_alternate (self : PaibotChat) (turns : list (str * str))
    (w w' : World) (replies : list str) :
  store_alternating w ->
  run_turns self turns w = Ok (replies, w') ->
  store_alternating w'
  /\ forall user_id history w'',
       load_history (chatbot.memory self) user_id w' = Ok (history, w'') ->
       alternating history.
Proof.
  intros Hok Hrun.
  assert (store_alternating w') as Hok'.
  { revert w replies Hok Hrun.
    induction turns as [|[user_id message] turns IH]; intros w replies Hok; cbn [run_turns].
    - by intros [= <- <-].
    - destruct (respond self user_id message w) as [[reply w1]|] eqn:Hr; [| done].
      cbn [mbind result_bind].
      destruct (run_turns self turns w1) as [[replies' w2]|] eqn:Hrun; [| done].
      cbn [mbind result_bind]. intros [= <- <-].
      eapply IH; [| done]. by eapply respond_alternating. }
  split; [done |]. intros user_id history w'' Hl. by eapply store_alternating_load.
Qed.

(** X21.  A command query is only ever answered with a loaded document;
    when no document is loaded, no message resolves to a command, whatever
    it contains. *)
Theorem resolve_command_query_loaded (self : PaibotChat) (message : str) :
  (forall document,
      _resolve_command_query self message = Some document ->
      exists key, (key, document) ∈ _documents (chatbot.command_docs self))
  /\ (_documents (chatbot.command_docs self) = [] ->
      _resolve_command_query self message = None).
Proof.
  assert (forall document,
            _resolve_command_query self message = Some document ->
            exists key, (key, document) ∈ _documents (chatbot.command_docs self)) as Hsound.
  { intros document. unfold _resolve_command_query, get.
    destruct (COMMAND_PATTERN_search message) as [candidate|].
    - destruct (dict_get (lower candidate) _) as [d|] eqn:Hget.
      + intros [= ->]. eexists. by apply dict_get_Some.
      + intros H. apply find_best_match_loaded in H as [k [Hin _]]. by exists k.
    - destruct (List.find _ _) as [name|]; [| done].
      intros H. eexists. by apply dict_get_Some. }
  split; [done |]. intros Hempty.
  destruct (_resolve_command_query self message) as [document|] eqn:Hr; [| done].
  destruct (Hsound document eq_refl) as [key Hin]. rewrite Hempty in Hin.
  by apply elem_of_nil in Hin.
Qed.

(** *** The session of the command line *)

Lemma respond_strip (self : PaibotChat) (user_id message : str) (w : World) :
  respond self user_id (strip message) w = respond self user_id message w.
Proof. unfold respond. by rewrite strip_idemp. Qed.

Lemma loop_runs_turns (chat : PaibotChat) (usuario : str) (lines : list str)
    (ending : list run_paibot.Input) (w : World) :
  Forall (fun line => ~ quits line) lines ->
  ends_session ending ->
  run_paibot.loop chat usuario (map run_paibot.Line lines ++ ending) w
  = ('(replies, w') ← run_turns chat (map (pair usuario) lines) w;
     Ok (flat_map printed replies
         ++ [run_paibot.Prompt (py "Tú: "); run_paibot.Print (farewell ending)], w')).
Proof.
  intros Hlines Hend. revert w. induction Hlines as [|line lines Hline _ IH]; intros w.
  - cbn [map app run_turns mbind result_bind flat_map].
    destruct ending as [|[q|] rest]; cbn [run_paibot.loop farewell app]; try reflexivity.
    unfold ends_session, quits in Hend.
    rewrite bool_decide_eq_true_2 by exact Hend. reflexivity.
  - cbn [map app run_turns run_paibot.loop].
    rewrite bool_decide_eq_false_2 by exact Hline. rewrite respond_strip.
    destruct (respond chat usuario line w) as [[reply w1]|]; [| done].
    cbn [mbind result_bind]. rewrite IH.
    destruct (run_turns chat (map (pair usuario) lines) w1) as [[replies w2]|]; [| done].
    done.
Qed.

(** X22.  The command-line session answers the lines before the first
    quit word ("salir", "exit" or "quit" in any case, trimmed), interrupt
    or end of input, one turn each and in order, and nothing after it: it
    prints the banner, each reply behind "Paibot: ", and the farewell, and
    returns 0; an exception of a turn ends it. *)
Theorem main_runs_turns (chat : PaibotChat) (usuario : str) (lines : list str)
    (ending : list run_paibot.Input) (w : World) :
  Forall (fun line => ~ quits line) lines ->
  ends_session ending ->
  run_paibot.main chat usuario (map run_paibot.Line lines ++ ending) w
  = ('(replies, w') ← run_turns chat (map (pair usuario) lines) w;
     Ok (run_paibot.Print run_paibot.BANNER
           :: flat_map printed replies
           ++ [run_paibot.Prompt (py "Tú: "); run_paibot.Print (farewell ending)],
         0%Z, w')).
Proof.
  intros Hlines Hend. unfold run_paibot.main.
  rewrite (loop_runs_turns chat usuario lines ending w Hlines Hend).
  by destruct (run_turns chat (map (pair usuario) lines) w) as [[replies w']|].
Qed.

(** *** The captured identifier is a whole token *)

Lemma token_in_cons (c : N) (s name : str) : token_in s name -> token_in (c :: s) name.
Proof. intros (pre & post & -> & H). by exists (c :: pre), post. Qed.

Lemma token_in_app (pre s name : str) : token_in s name -> token_in (pre ++ s) name.
Proof. intros H. induction pre as [|c pre IH]; [done |]. by apply token_in_cons. Qed.

Lemma take_while_stops {A} (f : A -> bool) (l : list A) :
  exists post, l = take_while f l ++ post
    /\ match post with [] => True | a :: _ => f a = false end.
Proof.
  induction l as [|a l [post [Hl Hpost]]]; simpl; [by exists [] |].
  destruct (f a) eqn:Ha.
  - exists post. split; [simpl; congruence | done].
  - by exists (a :: l).
Qed.

Lemma match_name_token (s name : str) : match_name s = Some name -> token_in s name.
Proof.
  intros H. pose proof (match_name_sound s name H) as (post' & _ & Hne & Hall).
  unfold match_name in H. destruct (take_while_stops is_name_char s) as [post [Hs Hpost]].
  destruct (take_while is_name_char s) as [|c t]; [done |].
  injection H as <-. by exists [], post.
Qed.

Lemma match_separators_token (s name : str) :
  match_separators s = Some name -> token_in s name.
Proof.
  induction s as [|c s IH]; [apply match_name_token |].
  cbn [match_separators]. destruct (is_separator c); [| apply match_name_token].
  destruct (match_separators s) as [name'|]; [| apply match_name_token].
  intros [= ->]. by apply token_in_cons, IH.
Qed.

Lemma after_word_token (s name : str) : after_word s = Some name -> token_in s name.
Proof.
  destruct s as [|c s]; simpl; [done |]. destruct (is_separator c); [| done].
  intros H. by apply token_in_cons, match_separators_token.
Qed.

Lemma match_word_token (s name : str) : match_word s = Some name -> token_in s name.
Proof.
  destruct lits_lowercase as [L1 [L2 L3]].
  assert (forall lit, Forall (fun p => 97 <= p <= 122) lit ->
            match_literal lit s ≫= after_word = Some name -> token_in s name) as Halt.
  { intros lit Hlit H. destruct (match_literal lit s) as [rest|] eqn:Hm; [| done].
    apply match_literal_sound in Hm as [word [-> _]]; [| done].
    by apply token_in_app, after_word_token. }
  rewrite match_word_eq.
  destruct (match_literal (py "comando") s ≫= after_word) as [n1|] eqn:H1.
  { intros [= ->]. by apply (Halt _ L1). }
  destruct (match_literal (py "command") s ≫= after_word) as [n2|] eqn:H2.
  { intros [= ->]. by apply (Halt _ L2). }
  by apply (Halt _ L3).
Qed.

Lemma match_here_token (s name : str) : match_here s = Some name -> token_in s name.
Proof.
  destruct s as [|c s]; [apply match_word_token |]. cbn [match_here].
  destruct ((c =? 33) || (c =? 47)); [| apply match_word_token].
  destruct (match_word s) as [n|] eqn:H; [| apply match_word_token].
  intros [= ->]. by apply token_in_cons, match_word_token.
Qed.

(** X23.  The search captures a whole token: the identifier it returns is
    a non-empty run of word characters and hyphens of the message, and the
    character after it, if any, is not one of them. *)
Theorem search_captures_token (message name : str) :
  COMMAND_PATTERN_search message = Some name -> token_in message name.
Proof.
  induction message as [|c message IH]; cbn [COMMAND_PATTERN_search].
  - destruct (match_here []) eqn:H; [| done]. intros [= ->]. by apply match_here_token.
  - destruct (match_here (c :: message)) eqn:H.
    + intros [= ->]. by apply match_here_token.
    + intros H'. by apply token_in_cons, IH.
Qed.

(** *** The length of a history over a session *)

Lemma respond_loads (self : PaibotChat) (user_id message : str) (w w' : World)
    (reply : str) :
  strip message <> [] ->
  respond self user_id message w = Ok (reply, w') ->
  exists history w1, load_history (chatbot.memory self) user_id w = Ok (history, w1).
Proof.
  intros Hm Hr.
  destruct (load_history (chatbot.memory self) user_id w) as [[history w1]|e] eqn:Hl.
  - by eexists _, _.
  - by rewrite (respond_not_loaded self user_id message w e Hm Hl) in Hr.
Qed.

Lemma session_length (self : PaibotChat) (user_id : str) (messages : list str)
    (w w1 w' : World) (history : list MemoryRecord) (replies : list str) :
  (1 <= _history_window self)%Z ->
  Forall (fun message => forallb isspace message = false) messages ->
  load_history (chatbot.memory self) user_id w = Ok (history, w1) ->
  (Z.of_nat (length history) <= 2 * _history_window self)%Z ->
  run_turns self (map (pair user_id) messages) w = Ok (replies, w') ->
  exists persisted w'',
    load_history (chatbot.memory self) user_id w' = Ok (persisted, w'')
    /\ Z.of_nat (length persisted)
       = Z.min (2 * _history_window self)
               (Z.of_nat (length history) + 2 * Z.of_nat (length messages)).
Proof.
  intros Hw Hall. revert w w1 history replies.
  induction Hall as [|message messages Hmsg _ IH]; intros w w1 history replies Hl Hlen.
  - cbn [map run_turns]. intros [= <- <-]. exists history, w1. split; [done |].
    cbn [length]. lia.
  - cbn [map run_turns].
    destruct (respond self user_id message w) as [[reply w2]|] eqn:Hr; [| done].
    cbn [mbind result_bind].
    destruct (run_turns self _ w2) as [[replies' w3]|] eqn:Hrun; [| done].
    cbn [mbind result_bind]. intros [= <- <-].
    assert (strip message <> []) as Hm.
    { intros H. apply strip_nil in H. congruence. }
    destruct (respond_persists self user_id message w w1 w2 history reply Hw Hm Hl Hr)
      as (u & a & w4 & _ & _ & Hl2).
    destruct (IH w2 w4 _ replies' Hl2) as (persisted & w'' & Hl3 & Hlen3); [| done |].
    + rewrite last_n_length, length_app. cbn [length]. lia.
    + exists persisted, w''. split; [done |]. rewrite Hlen3.
      rewrite last_n_length, length_app. cbn [length]. lia.
Qed.

(** X24.  The length of a history over a session: a user without a memory
    file who sends [n] messages that are not blank has afterwards a history
    of [2n] records, up to twice the window in force.  (For [n = 0] the
    history is loaded at all only when the file name is within the limits
    of the file system.) *)
Theorem session_history_length (memory_manager : MemoryManager)
    (persona : option PaimonPersona) (docs : CommandDocumentation)
    (model : list Event -> list value -> GenerationConfig -> Response)
    (W : Z) (mention_aliases : option (list str))
    (user_id : str) (messages : list str) (w w' : World) (replies : list str) :
  let self := init memory_manager persona docs model W mention_aliases in
  Forall (fun message => forallb isspace message = false) messages ->
  files w !! _memory_file memory_manager user_id = None ->
  (messages = [] -> name_too_long (_memory_file memory_manager user_id) = false) ->
  run_turns self (map (pair user_id) messages) w = Ok (replies, w') ->
  exists persisted w'',
    load_history memory_manager user_id w' = Ok (persisted, w'')
    /\ Z.of_nat (length persisted)
       = Z.min (2 * Z.max W 1) (2 * Z.of_nat (length messages)).
Proof.
  intros self Hall Hf Hempty Hrun.
  assert (1 <= _history_window self)%Z as Hw by (cbn; lia).
  assert (name_too_long (_memory_file memory_manager user_id) = false) as Hname.
  { destruct messages as [|message rest]; [by apply Hempty |].
    apply Forall_cons in Hall as [Hmsg _].
    assert (strip message <> []) as Hm.
    { intros H. apply strip_nil in H. congruence. }
    revert Hrun. cbn [map run_turns].
    destruct (respond self user_id message w) as [[reply w2]|] eqn:Hr; [| done].
    intros _. destruct (respond_loads _ _ _ _ _ _ Hm Hr) as (history & w1 & Hl).
    revert Hl. unfold load_history. cbn [log files]. cbn [chatbot.memory self init].
    rewrite Hf. by destruct (name_too_long _). }
  assert (load_history (chatbot.memory self) user_id w
          = Ok ([], log (EvExists (_memory_file memory_manager user_id)) w)) as Hl.
  { unfold load_history. cbn [log files]. cbn [chatbot.memory self init].
    by rewrite Hf, Hname. }
  destruct (session_length self user_id messages w _ w' [] replies Hw Hall Hl) as
    (persisted & w'' & Hl' & Hlen); [cbn [length]; lia | done |].
  exists persisted, w''. split; [done |]. rewrite Hlen. cbn [length]. done.
Qed.

(** *** A message that cannot be stored *)

Lemma saved_payload_encodable (user_id now : str) (history : list MemoryRecord) :
  value_encodable (saved_payload user_id history now) = true ->
  Forall (fun record => value_encodable (to_json record) = true) history.
Proof.
  unfold saved_payload. cbn [value_encodable forallb].
  rewrite !andb_true_iff. intros (_ & (_ & Hh) & _).
  apply Forall_forall. intros record Hin.
  rewrite forallb_forall in Hh. apply Hh, in_map, list_elem_of_In, Hin.
Qed.

Lemma to_json_content_encodable (record : MemoryRecord) :
  value_encodable (to_json record) = true -> value_encodable (content record) = true.
Proof.
  assert (metadata record = VNone \/ metadata record <> VNone) as [Hm | Hm]
    by (destruct (metadata record); (by left) || (by right)).
  - rewrite (to_json_omits_none record Hm). cbn [value_encodable forallb].
    rewrite !andb_true_iff. by intros (_ & (_ & Hc) & _).
  - rewrite (to_json_keeps_metadata record Hm). cbn [value_encodable forallb].
    rewrite !andb_true_iff. by intros (_ & (_ & Hc) & _).
Qed.

Lemma last_n_keeps_last_two {A} (n : nat) (l : list A) (x y : A) :
  (2 <= n)%nat -> x ∈ last_n n (l ++ [x; y]).
Proof.
  intros Hn. unfold last_n. rewrite length_app. cbn [length].
  rewrite drop_app_le by lia. apply elem_of_app. right. apply list_elem_of_here.
Qed.

(** X25.  A message that holds a lone surrogate is never answered: its
    record is among those the turn saves, whatever the window, and the
    memory file cannot hold it; the turn raises, at the latest there. *)
Theorem respond_unencodable_message (memory_manager : MemoryManager)
    (persona : option PaimonPersona) (docs : CommandDocumentation)
    (model : list Event -> list value -> GenerationConfig -> Response)
    (W : Z) (mention_aliases : option (list str))
    (user_id message : str) (w : World) :
  let self := init memory_manager persona docs model W mention_aliases in
  encodable (strip message) = false ->
  exists e, respond self user_id message w = Raise e.
Proof.
  intros self Henc.
  assert (1 <= _history_window self)%Z as Hw by (cbn; lia).
  assert (strip message <> []) as Hm.
  { intros H. by rewrite H in Henc. }
  destruct (respond self user_id message w) as [[reply w']|e] eqn:Hr; [| by exists e].
  exfalso.
  destruct (respond_returns _ _ _ _ _ _ Hm Hr) as (history & w1 & _ & _ & Hs).
  rewrite save_history_cases in Hs.
  destruct (name_too_long _); [done |].
  destruct (value_encodable _) eqn:Hv; [| done].
  apply saved_payload_encodable in Hv.
  rewrite trim_history_last_n in Hv by done. unfold turn_history in Hv.
  rewrite Forall_forall in Hv.
  assert (2 <= Z.to_nat (_history_window self * 2))%nat as Hn by lia.
  pose proof (Hv _ (last_n_keeps_last_two _ history _ _ Hn)) as Hu.
  apply to_json_content_encodable in Hu. cbn [content value_encodable] in Hu.
  congruence.
Qed.

End chatbot_further.

(** ** Concrete runs of the further properties *)

Section further_runs.
Import persona command_docs memory chatbot.
#[local] Existing Instance ascii_runtime.

(** X2 on a memory file that holds a list. *)
Lemma load_broken_file :
  load_history demo.manager (py "ana") samples.broken_world = Raise AttributeError.
Proof.
  destruct (load_history_malformed demo.manager (py "ana") samples.broken_world (VList []))
    as [Hraise _].
  - vm_compute; reflexivity.
  - apply Hraise. simpl. tauto.
Defined.

(** X3 on a file with an empty object and one with two fields. *)
Lemma load_sparse_file :
  exists w',
    load_history demo.manager (py "ana") samples.sparse_world
    = Ok (imap (fun i item =>
                  record_with_defaults (utcnow (clock samples.sparse_world + i)) item)
               samples.sparse_items, w')
    /\ clock w' = (clock samples.sparse_world + length samples.sparse_items)%nat.
Proof.
  apply (load_history_defaults demo.manager (py "ana") samples.sparse_world
           samples.sparse_payload samples.sparse_items).
  - vm_compute; reflexivity.
  - vm_compute; reflexivity.
Defined.

(** X4 for two users with different keys. *)
Lemma save_ana_keeps_bob :
  exists w',
    save_history demo.manager (py "ana") [samples.note] demo.world0 = Ok w'
    /\ files w' !! _memory_file demo.manager (py "bob")
       = files demo.world0 !! _memory_file demo.manager (py "bob").
Proof.
  destruct (save_history demo.manager (py "ana") [samples.note] demo.world0)
    as [w'|e] eqn:Hs; [| by vm_compute in Hs].
  exists w'. split; [reflexivity |].
  apply (save_history_isolation demo.manager (py "ana") (py "bob") [samples.note]
           demo.world0 w'); [| exact Hs].
  intros H. vm_compute in H. discriminate H.
Defined.

(** X5 for the identities "a/b" and "a?b", both stored under "a_b". *)
Lemma save_shared_key :
  exists w1 w',
    save_history demo.manager (py "a/b") [samples.note] demo.world0 = Ok w1
    /\ load_history demo.manager (py "a?b") w1 = Ok ([samples.note], w').
Proof.
  destruct (save_history demo.manager (py "a/b") [samples.note] demo.world0)
    as [w1|e] eqn:Hs; [| by vm_compute in Hs].
  destruct (save_history_shared_key demo.manager (py "a/b") (py "a?b") [samples.note]
              demo.world0 w1) as [w' Hl]; [vm_compute; reflexivity | exact Hs |].
  by exists w1, w'.
Defined.

(** X6 on the empty store. *)
Lemma extend_empty_store :
  exists w2 w3,
    extend demo.manager (py "ana") [samples.note; samples.note] demo.world0 = Ok w2
    /\ load_history demo.manager (py "ana") w2
       = Ok ([] ++ [samples.note; samples.note], w3).
Proof.
  destruct (extend_then_load demo.manager (py "ana") [samples.note; samples.note] []
              demo.world0
              (log (EvExists (_memory_file demo.manager (py "ana"))) demo.world0))
    as [_ [Hload _]]; [vm_compute; reflexivity |].
  destruct (extend demo.manager (py "ana") [samples.note; samples.note] demo.world0)
    as [w2|e] eqn:He; [| by vm_compute in He].
  destruct (Hload w2 eq_refl) as [w3 Hl]. by exists w2, w3.
Defined.

(** X10 on the query "p", which occurs in "jump". *)
Lemma fuzzy_p_is_loaded :
  exists k, (k, document_of demo.jump_md) ∈ _documents demo.docs
            /\ related k (lower (py "p")).
Proof.
  apply (find_best_match_sound demo.docs (py "p") (document_of demo.jump_md)).
  vm_compute; reflexivity.
Defined.

(** X14 on "hola". *)
Lemma decorate_plain_twice :
  _decorate_sentence samples.plain (py "hola!") = Ok (py "hola!").
Proof.
  apply (decorate_sentence_idempotent samples.plain (py "hola") (py "hola!")).
  - reflexivity.
  - vm_compute; reflexivity.
Defined.

(** X18 on a command query: one write, no call of the model. *)
Lemma command_turn_effects :
  exists reply w' events,
    respond (demo.chat 12) (py "ana") (py "!comando jump") demo.world0 = Ok (reply, w')
    /\ trace w' = trace demo.world0 ++ events
    /\ length (List.filter calls_model events) = 0%nat
    /\ length (List.filter writes_file events) = 1%nat.
Proof.
  destruct (respond (demo.chat 12) (py "ana") (py "!comando jump") demo.world0)
    as [[reply w']|e] eqn:Hr.
  - destruct (respond_effects _ _ _ _ _ _ Hr) as (events & Ht & Hg & Hw).
    exists reply, w', events. split; [done |]. split; [done |].
    split; [rewrite Hg | rewrite Hw]; vm_compute; reflexivity.
  - vm_compute in Hr. discriminate Hr.
Defined.

(** X19: a turn of "ana" leaves "bob" without a file. *)
Lemma turn_of_ana_keeps_bob :
  exists reply w',
    respond (demo.chat 12) (py "ana") (py "Hola") demo.world0 = Ok (reply, w')
    /\ files w' !! _memory_file demo.manager (py "bob")
       = files demo.world0 !! _memory_file demo.manager (py "bob").
Proof.
  destruct (respond (demo.chat 12) (py "ana") (py "Hola") demo.world0)
    as [[reply w']|e] eqn:Hr.
  - exists reply, w'. split; [done |].
    apply (respond_other_files _ _ _ _ _ _ _ Hr).
    intros H. vm_compute in H. discriminate H.
  - vm_compute in Hr. discriminate Hr.
Defined.

Lemma empty_store_alternating : store_alternating demo.world0.
Proof.
  intros path payload H. unfold demo.world0 in H. cbn [files] in H.
  rewrite lookup_empty in H. discriminate H.
Qed.

(** X20 on a session with window 1, from the empty store. *)
Lemma session_alternates :
  exists replies w',
    run_turns (demo.chat 1)
      [(py "ana", py "Hola"); (py "ana", py "cmd: jump"); (py "ana", py "paibot?")]
      demo.world0 = Ok (replies, w')
    /\ store_alternating w'
    /\ forall user_id history w'',
         load_history (chatbot.memory (demo.chat 1)) user_id w' = Ok (history, w'') ->
         alternating history.
Proof.
  destruct (run_turns (demo.chat 1)
              [(py "ana", py "Hola"); (py "ana", py "cmd: jump"); (py "ana", py "paibot?")]
              demo.world0) as [[replies w']|e] eqn:Hrun.
  - exists replies, w'. split; [done |].
    apply (session_histories_alternate _ _ _ _ _ empty_store_alternating Hrun).
  - vm_compute in Hrun. discriminate Hrun.
Defined.

(** X22: one line, then "SALIR"; the line after it is not read. *)
Lemma main_hola_salir :
  run_paibot.main (demo.chat 12) (py "ana")
    (map run_paibot.Line [py "Hola"]
     ++ [run_paibot.Line (py " SALIR "); run_paibot.Line (py "paibot?")])
    demo.world0
  = ('(replies, w') ← run_turns (demo.chat 12) (map (pair (py "ana")) [py "Hola"])
                                 demo.world0;
     Ok (run_paibot.Print run_paibot.BANNER
           :: flat_map printed replies
           ++ [run_paibot.Prompt (py "Tú: ");
               run_paibot.Print
                 (farewell [run_paibot.Line (py " SALIR "); run_paibot.Line (py "paibot?")])],
         0%Z, w')).
Proof.
  apply (main_runs_turns (demo.chat 12) (py "ana") [py "Hola"]
           [run_paibot.Line (py " SALIR "); run_paibot.Line (py "paibot?")] demo.world0).
  - constructor; [| constructor].
    apply (bool_decide_eq_false_1 (lower (strip (py "Hola")) ∈ run_paibot.QUIT_WORDS)).
    vm_compute; reflexivity.
  - apply (bool_decide_eq_true_1 (lower (strip (py " SALIR ")) ∈ run_paibot.QUIT_WORDS)).
    vm_compute; reflexivity.
Defined.

(** X23 on a message with a marker. *)
Lemma capture_spawn_token : token_in (py "jump? !comando spawn-2 ya") (py "spawn-2").
Proof.
  apply (search_captures_token (py "jump? !comando spawn-2 ya") (py "spawn-2")).
  vm_compute; reflexivity.
Defined.

(** X25 on the message U+D83D. *)
Lemma respond_lone_surrogate :
  exists e, respond (demo.chat 12) (py "ana") [55357] demo.world0 = Raise e.
Proof.
  apply (respond_unencodable_message demo.manager None demo.docs
           (demo.model (py " Hola, viajero. ")) 12 None (py "ana") [55357] demo.world0).
  vm_compute; reflexivity.
Defined.

(** X24: three messages with window 1 leave two records. *)
Lemma three_turns_window_one :
  exists replies w' persisted w'',
    run_turns (demo.chat 1) (map (pair (py "ana")) [py "Hola"; py "cmd: jump"; py "paibot?"])
              demo.world0 = Ok (replies, w')
    /\ load_history demo.manager (py "ana") w' = Ok (persisted, w'')
    /\ Z.of_nat (length persisted) = 2%Z.
Proof.
  destruct (run_turns (demo.chat 1)
              (map (pair (py "ana")) [py "Hola"; py "cmd: jump"; py "paibot?"])
              demo.world0) as [[replies w']|e] eqn:Hrun.
  - destruct (session_history_length demo.manager None demo.docs
                (demo.model (py " Hola, viajero. ")) 1 None (py "ana")
                [py "Hola"; py "cmd: jump"; py "paibot?"] demo.world0 w' replies)
      as (persisted & w'' & Hl & Hlen).
    + repeat constructor.
    + reflexivity.
    + discriminate.
    + exact Hrun.
    + exists replies, w', persisted, w''. split; [done |]. split; [done |].
      rewrite Hlen. reflexivity.
  - vm_compute in Hrun. discriminate Hrun.
Defined.

(** What the session prints: for a line and a quit word, and for an input
    that ends at once. *)
Example main_prints :
  (fun r => match r with Ok (out, code, _) => Some (out, code) | Raise _ => None end)
    (run_paibot.main (demo.chat 12) (py "ana")
       [run_paibot.Line (py "Hola"); run_paibot.Line (py "Quit"); run_paibot.Line (py "x")]
       demo.world0)
  = Some ([run_paibot.Print run_paibot.BANNER;
           run_paibot.Prompt (py "Tú: "); run_paibot.Print (py "Paibot: Hola, viajero.");
           run_paibot.Prompt (py "Tú: "); run_paibot.Print (py "Cerrando sesión. ¡Hasta luego!")],
          0%Z)
  /\ (fun r => match r with Ok (out, code, _) => Some (out, code) | Raise _ => None end)
       (run_paibot.main (demo.chat 12) (py "ana") [] demo.world0)
     = Some ([run_paibot.Print run_paibot.BANNER;
              run_paibot.Prompt (py "Tú: ");
              run_paibot.Print (10 :: py "Cerrando sesión. ¡Hasta luego!")],
             0%Z).
Proof. split; by vm_compute. Qed.

End further_runs.
